(** * Vivint hub: device identity, capability queries, session handling
      and entity attributes of [custom_components/vivint/hub.py].

    The adapter is glue between a vendor account client and a host
    platform.  Both are outside this file; the vendor client, the network
    session and the host callbacks are therefore an interface ([External])
    whose operations act on an abstract world, while everything that
    [hub.py] itself computes is a definition below. *)

From Stdlib Require Import ZArith String Ascii DecimalString DecimalPos DecimalZ.
From stdpp Require Import base option list gmap strings.

Local Open Scope string_scope.

(** ** Python values and exceptions *)

(** The attributes that end up in f-strings ([id], [panel_id]) are integers
    in the vendor client and strings in the scenarios of the documentation;
    the f-string formats either, and [None] as well. *)
Inductive PyVal :=
| PyInt (z : Z)
| PyStr (s : string)
| PyNone.

(** [format(v, "")], which is what a replacement field [{v}] of an f-string
    evaluates to. *)
Definition format (v : PyVal) : string :=
  match v with
  | PyInt z => NilZero.string_of_int (Z.to_int z)
  | PyStr s => s
  | PyNone => "None"
  end.

(** The exceptions that [hub.py] names, and those its own attribute and
    item accesses can raise.  [VivintSkyApiMfaRequiredError] derives from
    [VivintSkyApiAuthenticationError], which derives from
    [VivintSkyApiError].  A value built with one of the first eight
    constructors is an object of exactly that class ([OtherException] of a
    class that derives from none of the others); [Subclass cls base] is an
    object of class [cls], a class derived from the class of [base], as
    [ClientConnectorSSLError] is from [ClientConnectorError]. *)
Inductive PyExc :=
| VivintSkyApiMfaRequiredError (msg : string)
| VivintSkyApiAuthenticationError (msg : string)
| VivintSkyApiError (msg : string)
| ClientResponseError (status : Z)
| ClientConnectorError (msg : string)
| KeyError (key : string)
| AttributeError (msg : string)
| OtherException (cls msg : string)
| Subclass (cls : string) (base : PyExc).

(** The classes [login] names in its [except] clauses. *)
Inductive ExcClass :=
| VivintSkyApiMfaRequiredError_class
| VivintSkyApiAuthenticationError_class
| VivintSkyApiError_class
| ClientResponseError_class
| ClientConnectorError_class.

(** [isinstance(ex, c)], which is what an [except c] clause tests: the
    class of [ex] is [c] or derives from it. *)
Fixpoint isinstance (ex : PyExc) (c : ExcClass) : bool :=
  match ex with
  | VivintSkyApiMfaRequiredError _ =>
      match c with
      | VivintSkyApiMfaRequiredError_class
      | VivintSkyApiAuthenticationError_class
      | VivintSkyApiError_class => true
      | _ => false
      end
  | VivintSkyApiAuthenticationError _ =>
      match c with
      | VivintSkyApiAuthenticationError_class
      | VivintSkyApiError_class => true
      | _ => false
      end
  | VivintSkyApiError _ =>
      match c with
      | VivintSkyApiError_class => true
      | _ => false
      end
  | ClientResponseError _ =>
      match c with
      | ClientResponseError_class => true
      | _ => false
      end
  | ClientConnectorError _ =>
      match c with
      | ClientConnectorError_class => true
      | _ => false
      end
  | KeyError _ | AttributeError _ | OtherException _ _ => false
  | Subclass _ base => isinstance base c
  end.

Inductive result (A : Type) :=
| Ok (a : A)
| Raise (e : PyExc).
Arguments Ok {A} a.
Arguments Raise {A} e.

Definition rbind {A B} (r : result A) (k : A -> result B) : result B :=
  match r with
  | Ok a => k a
  | Raise e => Raise e
  end.

Declare Scope result_scope.
Delimit Scope result_scope with res.
Notation "x <- r ; k" := (rbind r (fun x => k))
  (at level 100, r at next level, right associativity) : result_scope.

(** Reading attribute [attr] of [None]. *)
Definition NoneType_has_no (attr : string) : PyExc :=
  AttributeError ("'NoneType' object has no attribute '" +:+ attr +:+ "'").

(** Truthiness of an [Optional[str]]. *)
Definition truthy_str (o : option string) : bool :=
  match o with
  | Some s => negb (String.eqb s "")
  | None => false
  end.

(** ** Constants of [.const] *)

(** [DOMAIN] and [CONF_REFRESH_TOKEN] are imported from the package's
    [const] module; the two [CONF_] keys below are the host's. *)
Class Const := {
  DOMAIN : string;
  CONF_REFRESH_TOKEN : string
}.

Definition CONF_USERNAME : string := "username".
Definition CONF_PASSWORD : string := "password".
Definition UPDATE_INTERVAL : Z := 300.

(** ** Vendor devices *)

(** [CapabilityCategoryType], [CapabilityType] and [FeatureType] are integer
    enumerations; a member is its value. *)
Abbreviation Category := Z (only parsing).
Abbreviation Capability := Z (only parsing).
Abbreviation Feature := Z (only parsing).

(** What [type(device)] is asked for: its [__name__], and whether it is
    [AlarmPanel] or a subclass of it. *)
Record PyClass := {
  class_name : string;
  subclass_of_AlarmPanel : bool
}.

(** The read-only attributes of a [VivintDevice] that [hub.py] reads.
    [parent] and [alarm_panel] are references that may be [None]. *)
#[warnings="-register-all"]
Inductive VivintDevice := mkVivintDevice {
  class_of : PyClass;
  id : PyVal;
  panel_id : PyVal;
  is_subdevice : bool;
  parent : option VivintDevice;
  alarm_panel : option VivintDevice;
  name : option string;
  manufacturer : option string;
  model : option string;
  software_version : option string;
  capabilities : option (gmap Z (list Z));
  features : option (list Z)
}.

Definition isinstance_AlarmPanel (device : VivintDevice) : bool :=
  subclass_of_AlarmPanel (class_of device).

Definition type_name (device : VivintDevice) : string :=
  class_name (class_of device).

Section DeviceFunctions.
Context `{Const}.

(** [get_device_id]: the f-string reads [device.panel_id] first, then
    [device.is_subdevice], then [device.parent.id] or [device.id]. *)
Definition get_device_id (device : VivintDevice) : result (string * string) :=
  (let panel := format (panel_id device) in
   effective <- (if is_subdevice device
                 then match parent device with
                      | Some p => Ok (id p)
                      | None => Raise (NoneType_has_no "id")
                      end
                 else Ok (id device));
   Ok (DOMAIN, panel +:+ "-" +:+ format effective))%res.

(** [get_device_id] applied to a reference that may be [None]: the first
    attribute read, [panel_id], fails on [None]. *)
Definition get_device_id_ref (device : option VivintDevice)
  : result (string * string) :=
  match device with
  | Some d => get_device_id d
  | None => Raise (NoneType_has_no "panel_id")
  end.
End DeviceFunctions.

(** [d or {}] on an optional dict: [None] and the empty dict are falsy. *)
Definition dict_or_empty {V} (d : option (gmap Z V)) : gmap Z V :=
  match d with
  | Some m => if decide (m = ∅) then ∅ else m
  | None => ∅
  end.

(** [l or []] on an optional list. *)
Definition list_or_empty {A} (l : option (list A)) : list A :=
  match l with
  | Some (x :: xs) => x :: xs
  | Some [] => []
  | None => []
  end.

(** [dict.get(key, default)]. *)
Definition dict_get {V} (m : gmap Z V) (key : Z) (default : V) : V :=
  match m !! key with
  | Some v => v
  | None => default
  end.

(** [x in l] on a list of enum members: some element equals [x]. *)
Fixpoint py_in (x : Z) (l : list Z) : bool :=
  match l with
  | [] => false
  | y :: l' => if Z.eqb y x then true else py_in x l'
  end.

Definition has_capability (device : VivintDevice)
    (category : Category) (capability : Capability) : bool :=
  if py_in capability (dict_get (dict_or_empty (capabilities device)) category [])
  then true
  else false.

Definition has_feature (device : VivintDevice) (feature : Feature) : bool :=
  py_in feature (list_or_empty (features device)).

(** ** The vendor client, the network session and host callbacks *)

(** Objects that live outside [hub.py] are known by their identity. *)
Definition ref := nat.

(** The operations [hub.py] calls on objects it does not implement.  Each
    acts on the state [W] of the outside world and either returns or
    raises; [Account_connected] and [ClientSession_closed] are property
    reads. *)
Class External (W : Type) := {
  Account_new : string -> string -> option string -> ref -> W -> result ref * W;
  Account_connect : ref -> bool -> bool -> W -> result unit * W;
  Account_disconnect : ref -> W -> result unit * W;
  Account_verify_mfa : ref -> string -> W -> result unit * W;
  Account_refresh : ref -> W -> result unit * W;
  Account_connected : ref -> W -> bool;
  ClientSession_closed : ref -> W -> bool;
  ClientSession_close : ref -> W -> result unit * W;
  Callable_call : ref -> W -> result unit * W
}.

(** A call that left [hub.py], or a line it logged. *)
Inductive Event :=
| NewAccount (username password : string) (refresh_token : option string)
             (client_session : ref)
| Connect (account : ref) (load_devices subscribe_for_realtime_updates : bool)
| Disconnect (account : ref)
| VerifyMfa (account : ref) (code : string)
| Refresh (account : ref)
| CloseSession (session : ref)
| CallListener (listener : ref)
| LogError (msg : string).

(** ** [VivintHub] *)

(** The attributes of a hub object.  [_lock] is an [asyncio.Lock] that only
    [disconnect] takes and that it releases on every exit; calls that run
    one after the other always find it free, so it carries no state here.
    [coordinator] is configuration: name [DOMAIN], period [UPDATE_INTERVAL]
    seconds, update method [_async_update_data]. *)
Record VivintHub := {
  _data : gmap string string;
  __undo_listener : option ref;
  account : option ref;
  logged_in : bool;
  session : ref
}.

Section Hub.
Context `{Const} {W : Type} `{External W}.

(** A method of the hub runs on the hub object, the outside world and the
    record of calls made so far.  Mutations made before an exception
    stay. *)
Record State := {
  self : VivintHub;
  world : W;
  calls : list Event
}.

Definition M (A : Type) : Type := State -> result A * State.

Definition ret {A} (a : A) : M A := fun st => (Ok a, st).

Definition raise {A} (e : PyExc) : M A := fun st => (Raise e, st).

Definition bind {A B} (m : M A) (k : A -> M B) : M B :=
  fun st =>
    match m st with
    | (Ok a, st') => k a st'
    | (Raise e, st') => (Raise e, st')
    end.

(** [try: body except ... as ex: handler ex]; a handler that does not
    match re-raises. *)
Definition try_except {A} (body : M A) (handler : PyExc -> M A) : M A :=
  fun st =>
    match body st with
    | (Ok a, st') => (Ok a, st')
    | (Raise e, st') => handler e st'
    end.

Definition gets {A} (f : VivintHub -> A) : M A :=
  fun st => (Ok (f (self st)), st).

Definition modify (f : VivintHub -> VivintHub) : M unit :=
  fun st => (Ok tt, {| self := f (self st); world := world st; calls := calls st |}).

(** A property read on an outside object. *)
Definition read {A} (f : W -> A) : M A :=
  fun st => (Ok (f (world st)), st).

(** A call on an outside object, recorded as [ev]. *)
Definition call {A} (ev : Event) (op : W -> result A * W) : M A :=
  fun st =>
    let (r, w) := op (world st) in
    (r, {| self := self st; world := w; calls := calls st ++ [ev] |}).

Definition _LOGGER_error (msg : string) : M unit :=
  fun st =>
    (Ok tt, {| self := self st; world := world st;
               calls := calls st ++ [LogError msg] |}).
End Hub.

Arguments State W : clear implicits.
Arguments M W A : clear implicits.

Declare Scope hub_scope.
Delimit Scope hub_scope with hub.
Notation "x <- m ; k" := (bind m (fun x => k))
  (at level 100, m at next level, right associativity) : hub_scope.
Notation "m ;; k" := (bind m (fun _ => k))
  (at level 100, right associativity) : hub_scope.

Section HubMethods.
Context `{Const} {W : Type} `{External W}.
Local Open Scope hub_scope.

Definition set_logged_in (b : bool) (h : VivintHub) : VivintHub :=
  {| _data := _data h; __undo_listener := __undo_listener h;
     account := account h; logged_in := b; session := session h |}.

Definition set_account (a : option ref) (h : VivintHub) : VivintHub :=
  {| _data := _data h; __undo_listener := __undo_listener h;
     account := a; logged_in := logged_in h; session := session h |}.

Definition set_undo_listener (l : option ref) (h : VivintHub) : VivintHub :=
  {| _data := _data h; __undo_listener := l;
     account := account h; logged_in := logged_in h; session := session h |}.

(** [self._data[key]]. *)
Definition data_getitem (key : string) : M W string :=
  d <- gets _data;
  match d !! key with
  | Some v => ret v
  | None => raise (KeyError key)
  end.

(** [self.account.attr]: [self.account] is [None] until the first
    [login]. *)
Definition account_attr (attr : string) : M W ref :=
  a <- gets account;
  match a with
  | Some r => ret r
  | None => raise (NoneType_has_no attr)
  end.

Definition save_session : M W bool :=
  modify (set_logged_in true);;
  gets logged_in.

Definition login (load_devices subscribe_for_realtime_updates : bool)
  : M W bool :=
  modify (set_logged_in false);;
  username <- data_getitem CONF_USERNAME;
  password <- data_getitem CONF_PASSWORD;
  refresh_token <- gets (fun h => _data h !! CONF_REFRESH_TOKEN);
  client_session <- gets session;
  acc <- call (NewAccount username password refresh_token client_session)
              (Account_new username password refresh_token client_session);
  modify (set_account (Some acc));;
  try_except
    (a <- account_attr "connect";
     call (Connect a load_devices subscribe_for_realtime_updates)
          (Account_connect a load_devices subscribe_for_realtime_updates);;
     save_session)
    (fun ex =>
       if isinstance ex VivintSkyApiMfaRequiredError_class then
         raise ex
       else if isinstance ex VivintSkyApiAuthenticationError_class then
         _LOGGER_error "Invalid credentials";;
         raise ex
       else if isinstance ex VivintSkyApiError_class
               || isinstance ex ClientResponseError_class
               || isinstance ex ClientConnectorError_class then
         _LOGGER_error "Unable to connect to the Vivint API";;
         raise ex
       else raise ex).

Definition disconnect : M W unit :=
  a <- account_attr "connected";
  connected <- read (Account_connected a);
  (if connected : bool
   then call (Disconnect a) (Account_disconnect a)
   else ret tt);;
  s <- gets session;
  closed <- read (ClientSession_closed s);
  (if negb closed
   then call (CloseSession s) (ClientSession_close s)
   else ret tt);;
  l <- gets __undo_listener;
  match l with
  | Some f =>
      call (CallListener f) (Callable_call f);;
      modify (set_undo_listener None)
  | None => ret tt
  end.

(** [except Exception as ex: raise ex] hands on what it caught; what it
    does not catch passes by it. *)
Definition verify_mfa (code : string) : M W bool :=
  try_except
    (a <- account_attr "verify_mfa";
     call (VerifyMfa a code) (Account_verify_mfa a code);;
     save_session)
    (fun ex => raise ex).

(** The coordinator's update method. *)
Definition _async_update_data : M W unit :=
  a <- account_attr "refresh";
  call (Refresh a) (Account_refresh a).

(** The state in which the hub's flag is [b] and all else is as in
    [st]. *)
Definition with_logged_in (b : bool) (st : State W) : State W :=
  {| self := set_logged_in b (self st); world := world st; calls := calls st |}.
End HubMethods.

(** ** Entities *)

Record EntityDescription := {
  key : string
}.

(** The host's [DeviceInfo]: the keyword arguments [hub.py] passes. *)
Module DeviceInfo.
Record t := {
  identifiers : gset (string * string);
  name : string;
  manufacturer : option string;
  model : option string;
  sw_version : option string;
  via_device : option (string * string)
}.
End DeviceInfo.

(** [self.device.parent if self.device.is_subdevice else self.device]. *)
Definition parent_or_self (self_device : VivintDevice) : option VivintDevice :=
  if is_subdevice self_device then parent self_device else Some self_device.

Section Entities.
Context `{Const}.
Local Open Scope result_scope.

(** The device-info block, which the two entity classes share line for
    line.  [device] is rebound to the parent of a sub-device before the
    record is built, so every attribute below is read from the rebound
    device; [get_device_id] is evaluated first and is where a [None]
    device fails. *)
Definition device_info (self_device : VivintDevice) : result DeviceInfo.t :=
  let device := parent_or_self self_device in
  ident <- get_device_id_ref device;
  match device with
  | None => Raise (NoneType_has_no "name")
  | Some device =>
      let name_ :=
        match name device with
        | Some s => if truthy_str (name device) then s else type_name device
        | None => type_name device
        end in
      via <- (if isinstance_AlarmPanel device
              then Ok None
              else (v <- get_device_id_ref (alarm_panel device); Ok (Some v)));
      Ok {| DeviceInfo.identifiers := {[ ident ]};
            DeviceInfo.name := name_;
            DeviceInfo.manufacturer := manufacturer device;
            DeviceInfo.model := model device;
            DeviceInfo.sw_version := software_version device;
            DeviceInfo.via_device := via |}
  end.
End Entities.

Module VivintBaseEntity.
Record t := {
  device : VivintDevice;
  hub : VivintHub;
  entity_description : EntityDescription;
  _attr_unique_id : string;
  _attr_device_info : DeviceInfo.t
}.

Definition _attr_has_entity_name : bool := true.

Section Init.
Context `{Const}.
Local Open Scope result_scope.

Definition __init__ (device : VivintDevice) (hub : VivintHub)
    (entity_description : EntityDescription) : result t :=
  let prefix :=
    match alarm_panel device with
    | Some panel => format (id panel) +:+ "-"
    | None => ""
    end in
  let unique_id :=
    prefix +:+ (format (id device) +:+ "-" +:+ key entity_description) in
  info <- device_info device;
  Ok {| device := device;
        hub := hub;
        entity_description := entity_description;
        _attr_unique_id := unique_id;
        _attr_device_info := info |}.
End Init.
End VivintBaseEntity.

Module VivintEntity.
Record t := {
  device : VivintDevice;
  hub : VivintHub;
  _attr_device_info : DeviceInfo.t
}.

Section Init.
Context `{Const}.
Local Open Scope result_scope.

Definition __init__ (device : VivintDevice) (hub : VivintHub) : result t :=
  info <- device_info device;
  Ok {| device := device; hub := hub; _attr_device_info := info |}.
End Init.

(** The [name] property forwards the device's current name. *)
Definition name (e : t) : option string := name (device e).
End VivintEntity.

(** ** A scripted vendor client

    A small deterministic stand-in for the outside world, on which the hub
    can be run: accounts and sessions are numbered as they are made, and
    the calls that can fail ([connect], [verify_mfa], [refresh]) take their
    outcome from a script, succeeding once the script is used up. *)
Record Sim := {
  sim_next : ref;
  sim_connected : list ref;
  sim_closed : list ref;
  sim_script : list (result unit)
}.

Definition mem_ref (r : ref) (l : list ref) : bool :=
  existsb (Nat.eqb r) l.

Definition sim_step (mark : option ref) (w : Sim) : result unit * Sim :=
  let outcome := match sim_script w with
                 | r :: _ => r
                 | [] => Ok tt
                 end in
  (outcome,
   {| sim_next := sim_next w;
      sim_connected := match outcome, mark with
                       | Ok _, Some a => a :: sim_connected w
                       | _, _ => sim_connected w
                       end;
      sim_closed := sim_closed w;
      sim_script := tl (sim_script w) |}).

Definition sim_external : External Sim := {|
  Account_new _ _ _ _ w :=
    (Ok (sim_next w),
     {| sim_next := S (sim_next w); sim_connected := sim_connected w;
        sim_closed := sim_closed w; sim_script := sim_script w |});
  Account_connect a _ _ w := sim_step (Some a) w;
  Account_disconnect a w :=
    (Ok tt,
     {| sim_next := sim_next w;
        sim_connected := List.filter (fun r => negb (Nat.eqb a r)) (sim_connected w);
        sim_closed := sim_closed w; sim_script := sim_script w |});
  Account_verify_mfa a _ w := sim_step (Some a) w;
  Account_refresh _ w := sim_step None w;
  Account_connected a w := mem_ref a (sim_connected w);
  ClientSession_closed s w := mem_ref s (sim_closed w);
  ClientSession_close s w :=
    (Ok tt,
     {| sim_next := sim_next w; sim_connected := sim_connected w;
        sim_closed := s :: sim_closed w; sim_script := sim_script w |});
  Callable_call _ w := (Ok tt, w)
|}.

(** The constants as the integration sets them. *)
Definition vivint_const : Const := {|
  DOMAIN := "vivint";
  CONF_REFRESH_TOKEN := "refresh_token"
|}.

(** ** Devices of the documentation's scenarios *)

Definition Device_class : PyClass :=
  {| class_name := "WirelessSensor"; subclass_of_AlarmPanel := false |}.

Definition AlarmPanel_class : PyClass :=
  {| class_name := "AlarmPanel"; subclass_of_AlarmPanel := true |}.

Definition plain_device (cls : PyClass) (i p : PyVal) (sub : bool)
    (par panel : option VivintDevice) : VivintDevice :=
  {| class_of := cls; id := i; panel_id := p; is_subdevice := sub;
     parent := par; alarm_panel := panel; name := None;
     manufacturer := None; model := None; software_version := None;
     capabilities := None; features := None |}.

(** Device A: [is_subdevice=False], [id="5"], [panel_id="100"]. *)
Definition device_A : VivintDevice :=
  plain_device Device_class (PyStr "5") (PyStr "100") false None None.

(** Device B: [is_subdevice=True], [parent=A]. *)
Definition device_B : VivintDevice :=
  plain_device Device_class (PyStr "6") (PyStr "100") true (Some device_A) None.

(** A sub-device of A that reports another panel than A does. *)
Definition device_other_panel : VivintDevice :=
  plain_device Device_class (PyStr "6") (PyStr "200") true (Some device_A) None.

(** A sub-device of B, which is itself a sub-device of A. *)
Definition device_nested : VivintDevice :=
  plain_device Device_class (PyStr "7") (PyStr "100") true (Some device_B) None.

(** A panel and one of its sensors, with integer ids as the vendor client
    has them; the sensor has a capability table and a feature list, and
    neither device has a name. *)
Definition panel_100 : VivintDevice :=
  plain_device AlarmPanel_class (PyInt 100) (PyInt 100) false None None.

Definition sensor_12 : VivintDevice :=
  {| class_of := Device_class; id := PyInt 12; panel_id := PyInt 100;
     is_subdevice := false; parent := None; alarm_panel := Some panel_100;
     name := Some ""; manufacturer := Some "Vivint"; model := None;
     software_version := None;
     capabilities := Some (<[1%Z := [10%Z; 11%Z]]> ∅);
     features := Some [3%Z; 4%Z] |}.

Definition battery : EntityDescription := {| key := "battery" |}.

(** A sub-device of the sensor: it has a name and a model of its own and
    no owning panel of its own. *)
Definition remote_13 : VivintDevice :=
  {| class_of := {| class_name := "Remote"; subclass_of_AlarmPanel := false |};
     id := PyInt 13; panel_id := PyInt 100;
     is_subdevice := true; parent := Some sensor_12; alarm_panel := None;
     name := Some "Remote"; manufacturer := None; model := Some "R1";
     software_version := None; capabilities := None; features := None |}.

(** A sub-device of the panel: it has a name and the panel as its owner. *)
Definition keypad_16 : VivintDevice :=
  {| class_of := {| class_name := "Keypad"; subclass_of_AlarmPanel := false |};
     id := PyInt 16; panel_id := PyInt 100;
     is_subdevice := true; parent := Some panel_100;
     alarm_panel := Some panel_100;
     name := Some "Hall keypad"; manufacturer := None; model := None;
     software_version := None; capabilities := None; features := None |}.

(** ** A hub to run *)

(** A hub as [__init__] leaves it, but for the flag, which is up as after
    an earlier session: stored credentials, a teardown listener, no
    account yet. *)
Definition hub_0 : VivintHub :=
  {| _data := <["username" := "user"]> (<["password" := "secret"]> ∅);
     __undo_listener := Some 7;
     account := None;
     logged_in := true;
     session := 0 |}.

Definition state_0 (script : list (result unit)) : State Sim :=
  {| self := hub_0;
     world := {| sim_next := 1; sim_connected := []; sim_closed := [];
                 sim_script := script |};
     calls := [] |}.

(** The state a method leaves. *)
Definition after {A} (r : result A * State Sim) : State Sim := snd r.

(** Outcomes for the script: [connect] asking for MFA, [verify_mfa]
    refusing a code. *)
Definition mfa_required : result unit :=
  Raise (VivintSkyApiMfaRequiredError "MFA required").

Definition wrong_code : result unit :=
  Raise (VivintSkyApiError "Invalid code").

Section Runs.
Local Existing Instance vivint_const.
Local Existing Instance sim_external.

(** The hub after a [login] that went through, and after the
    [disconnect] that follows it. *)
Definition logged_in_state : State Sim :=
  after (login true true (state_0 [])).

Definition disconnected_state : State Sim :=
  after (disconnect logged_in_state).
End Runs.

(** ** Statements about device-info records *)

(** The name [hub.py] gives a device in its device-info record. *)
Definition shown_name (device : VivintDevice) : string :=
  match name device with
  | Some s => if truthy_str (name device) then s else type_name device
  | None => type_name device
  end.

Section DeviceInfoStatements.
Context `{Const}.

(** The [via_device] link of a record, measured against a device [dev]:
    unset exactly when [dev] is an alarm panel, and otherwise the identity
    of the alarm panel that owns [dev]. *)
Definition via_device_ok (dev : VivintDevice) (info : DeviceInfo.t) : Prop :=
  (DeviceInfo.via_device info = None <-> isinstance_AlarmPanel dev = true)
  /\ (isinstance_AlarmPanel dev = false ->
      exists (p : VivintDevice) (v : string * string),
        alarm_panel dev = Some p
        /\ get_device_id p = Ok v
        /\ DeviceInfo.via_device info = Some v).

(** The name of a record, measured against a device [dev]: the name of
    the class of [dev] when [dev] has no name or an empty one. *)
Definition unnamed_gets_class_name (dev : VivintDevice) (info : DeviceInfo.t)
  : Prop :=
  name dev = None \/ name dev = Some "" ->
  DeviceInfo.name info = type_name dev.
End DeviceInfoStatements.

(** ** What [disconnect] relies on *)

(** The listener calls among the calls made. *)
Definition listener_calls (evs : list Event) : list ref :=
  omap (fun ev => match ev with
                  | CallListener f => Some f
                  | _ => None
                  end) evs.

(** The behaviour of the objects [disconnect] calls that a second
    [disconnect] depends on: an account is not connected once its
    [disconnect] has returned, a session is closed once its [close] has
    returned, and neither closing a session nor running a listener
    reconnects an account or reopens a session. *)
Class ExternalContract (W : Type) `{External W} : Prop := {
  Account_disconnect_disconnects (a : ref) (w w' : W) :
    Account_disconnect a w = (Ok tt, w') -> Account_connected a w' = false;
  ClientSession_close_closes (s : ref) (w w' : W) :
    ClientSession_close s w = (Ok tt, w') -> ClientSession_closed s w' = true;
  ClientSession_close_stays_disconnected (s a : ref) (w w' : W) :
    ClientSession_close s w = (Ok tt, w') ->
    Account_connected a w = false -> Account_connected a w' = false;
  Callable_call_stays_disconnected (f a : ref) (w w' : W) :
    Callable_call f w = (Ok tt, w') ->
    Account_connected a w = false -> Account_connected a w' = false;
  Callable_call_stays_closed (f s : ref) (w w' : W) :
    Callable_call f w = (Ok tt, w') ->
    ClientSession_closed s w = true -> ClientSession_closed s w' = true
}.

(** ** Further statements and runs *)

(** The calls [login] is written to make: building an account, connecting
    it, logging a line. *)
Definition login_call (ev : Event) : bool :=
  match ev with
  | NewAccount _ _ _ _ | Connect _ _ _ | LogError _ => true
  | _ => false
  end.

(** The hub attributes that no method assigns. *)
Definition same_setup (h h' : VivintHub) : Prop :=
  _data h' = _data h /\ session h' = session h.

(** Decimal digits, and strings made of them: what an integer is formatted
    to, up to its sign. *)
Definition is_digit (c : ascii) : bool :=
  existsb (Ascii.eqb c)
    ["0"; "1"; "2"; "3"; "4"; "5"; "6"; "7"; "8"; "9"]%char.

Fixpoint all_digits (s : string) : bool :=
  match s with
  | EmptyString => true
  | String c s' => is_digit c && all_digits s'
  end.

(** A scripted client in which every call that can fail takes its outcome
    from the script: [disconnect], [close] and the listener as well. *)
Definition sim_scripted (effect : Sim -> Sim) (w : Sim) : result unit * Sim :=
  let w' := match sim_script w with
            | Raise _ :: _ => w
            | _ => effect w
            end in
  (match sim_script w with
   | r :: _ => r
   | [] => Ok tt
   end,
   {| sim_next := sim_next w'; sim_connected := sim_connected w';
      sim_closed := sim_closed w'; sim_script := tl (sim_script w) |}).

Definition sim_strict : External Sim := {|
  Account_new _ _ _ _ w :=
    (Ok (sim_next w),
     {| sim_next := S (sim_next w); sim_connected := sim_connected w;
        sim_closed := sim_closed w; sim_script := sim_script w |});
  Account_connect a _ _ w :=
    sim_scripted (fun w => {| sim_next := sim_next w;
                              sim_connected := a :: sim_connected w;
                              sim_closed := sim_closed w;
                              sim_script := sim_script w |}) w;
  Account_disconnect a w :=
    sim_scripted (fun w => {| sim_next := sim_next w;
                              sim_connected :=
                                List.filter (fun r => negb (Nat.eqb a r))
                                            (sim_connected w);
                              sim_closed := sim_closed w;
                              sim_script := sim_script w |}) w;
  Account_verify_mfa a _ w :=
    sim_scripted (fun w => {| sim_next := sim_next w;
                              sim_connected := a :: sim_connected w;
                              sim_closed := sim_closed w;
                              sim_script := sim_script w |}) w;
  Account_refresh _ w := sim_scripted (fun w => w) w;
  Account_connected a w := mem_ref a (sim_connected w);
  ClientSession_closed s w := mem_ref s (sim_closed w);
  ClientSession_close s w :=
    sim_scripted (fun w => {| sim_next := sim_next w;
                              sim_connected := sim_connected w;
                              sim_closed := s :: sim_closed w;
                              sim_script := sim_script w |}) w;
  Callable_call _ w := sim_scripted (fun w => w) w
|}.

(** Outcomes for the script: a refused password, an unreachable service, a
    listener that fails. *)
Definition bad_password : result unit :=
  Raise (VivintSkyApiAuthenticationError "Invalid credentials").

Definition unreachable : result unit :=
  Raise (ClientConnectorError "Cannot connect to host").

Definition listener_failed : result unit :=
  Raise (OtherException "RuntimeError" "listener failed").

(** A hub without a stored password. *)
Definition hub_no_password : VivintHub :=
  {| _data := <["username" := "user"]> ∅;
     __undo_listener := Some 7;
     account := None;
     logged_in := true;
     session := 0 |}.

(** A sub-device of the sensor, which has no owning panel of its own. *)
Definition sub_sensor_13 : VivintDevice :=
  {| class_of := Device_class; id := PyInt 13; panel_id := PyInt 100;
     is_subdevice := true; parent := Some sensor_12; alarm_panel := None;
     name := Some "Remote"; manufacturer := None; model := Some "R1";
     software_version := None; capabilities := None; features := None |}.

(** A device that says it is a sub-device and has no parent. *)
Definition orphan : VivintDevice :=
  plain_device Device_class (PyInt 14) (PyInt 100) true None (Some panel_100).

(** A named device of the panel. *)
Definition keypad_15 : VivintDevice :=
  {| class_of := Device_class; id := PyInt 15; panel_id := PyInt 100;
     is_subdevice := false; parent := None; alarm_panel := Some panel_100;
     name := Some "Keypad"; manufacturer := None; model := None;
     software_version := None; capabilities := None; features := None |}.

Definition tamper : EntityDescription := {| key := "tamper" |}.

(** A sub-device of the keypad, without a name of its own. *)
Definition keypad_remote_17 : VivintDevice :=
  {| class_of := {| class_name := "Remote"; subclass_of_AlarmPanel := false |};
     id := PyInt 17; panel_id := PyInt 100;
     is_subdevice := true; parent := Some keypad_15; alarm_panel := None;
     name := None; manufacturer := None; model := None;
     software_version := None; capabilities := None; features := None |}.

(** A failed TLS handshake, of a class derived from
    [ClientConnectorError]. *)
Definition ssl_failed : result unit :=
  Raise (Subclass "ClientConnectorSSLError"
           (ClientConnectorError "certificate verify failed")).

(** The sensor's record as another poll might deliver it: the same ids
    under another name. *)
Definition sensor_12_renamed : VivintDevice :=
  {| class_of := Device_class; id := PyInt 12; panel_id := PyInt 100;
     is_subdevice := false; parent := None; alarm_panel := Some panel_100;
     name := Some "Hall"; manufacturer := Some "Vivint"; model := None;
     software_version := None; capabilities := None; features := None |}.

Section StrictRuns.
Local Existing Instance vivint_const.
Local Existing Instance sim_strict.

(** A hub logged in on the strict client, with a script under which the
    account's [disconnect] and the session's [close] return and the
    listener fails. *)
Definition strict_logged_in_state : State Sim :=
  after (login true true (state_0 [Ok tt; Ok tt; Ok tt; listener_failed])).
End StrictRuns.

(** * Properties *)

(** ** Helper facts *)

Lemma py_in_elem_of (x : Z) (l : list Z) : py_in x l = true <-> x ∈ l.
Proof.
  induction l as [|y l IH]; simpl.
  - split; [discriminate | intros Hin; inversion Hin].
  - destruct (Z.eqb_spec y x) as [->|Hne].
    + split; [intros _; left | reflexivity].
    + rewrite IH. split.
      * intros Hin. now right.
      * intros Hin. inversion Hin; subst; [congruence | assumption].
Qed.

Lemma py_in_not_elem_of (x : Z) (l : list Z) : py_in x l = false <-> x ∉ l.
Proof.
  rewrite <- py_in_elem_of. destruct (py_in x l); split; congruence.
Qed.

Lemma dict_or_empty_lookup {V} (d : option (gmap Z V)) (k : Z) :
  dict_or_empty d !! k = match d with Some m => m !! k | None => None end.
Proof.
  destruct d as [m|]; simpl; [|apply lookup_empty].
  destruct (decide (m = ∅)) as [->|]; reflexivity.
Qed.

Lemma has_capability_lookup (D : VivintDevice) (G C : Z) :
  has_capability D G C =
  match capabilities D with
  | Some m => match m !! G with Some s => py_in C s | None => false end
  | None => false
  end.
Proof.
  unfold has_capability, dict_get. rewrite dict_or_empty_lookup.
  destruct (capabilities D) as [m|]; [|reflexivity].
  destruct (m !! G) as [s|]; [|reflexivity].
  now destruct (py_in C s).
Qed.

Lemma list_or_empty_id {A} (l : list A) : list_or_empty (Some l) = l.
Proof. now destruct l. Qed.

(** ** Device identity *)

Section DeviceIdentity.
Context `{Const}.

(** C7. A device that is not a sub-device is identified by the pair of
    [DOMAIN] and the string made of its panel id, a dash and its own
    id. *)
Theorem get_device_id_top_level (D : VivintDevice) :
  is_subdevice D = false ->
  get_device_id D = Ok (DOMAIN, format (panel_id D) +:+ "-" +:+ format (id D)).
Proof.
  intros Hsub. unfold get_device_id. now rewrite Hsub.
Qed.

(** C1, as the code has it. A sub-device is identified by its own panel
    id and its parent's id; that is the parent's identity whenever the
    parent is not itself a sub-device and renders the same panel id. *)
Theorem get_device_id_subdevice (D P : VivintDevice) :
  is_subdevice D = true ->
  parent D = Some P ->
  get_device_id D = Ok (DOMAIN, format (panel_id D) +:+ "-" +:+ format (id P))
  /\ (is_subdevice P = false ->
      format (panel_id P) = format (panel_id D) ->
      get_device_id D = get_device_id P).
Proof.
  intros Hsub Hpar.
  assert (HD : get_device_id D
               = Ok (DOMAIN, format (panel_id D) +:+ "-" +:+ format (id P))).
  { unfold get_device_id. now rewrite Hsub, Hpar. }
  split; [exact HD|].
  intros HP Hpanel. rewrite HD, (get_device_id_top_level P HP).
  now rewrite Hpanel.
Qed.
End DeviceIdentity.

(** ** Capability and feature queries *)

(** C5. [has_capability] is true exactly when the capability table is
    there, has the category, and the capability is among the category's
    values; it is false without a table or with an empty one, without the
    category, and with the category but without the capability. *)
Theorem has_capability_spec (D : VivintDevice) (G C : Z) :
  (has_capability D G C = true <->
   exists (m : gmap Z (list Z)) (s : list Z),
     capabilities D = Some m /\ m !! G = Some s /\ C ∈ s)
  /\ (capabilities D = None -> has_capability D G C = false)
  /\ (capabilities D = Some ∅ -> has_capability D G C = false)
  /\ (forall m : gmap Z (list Z),
        capabilities D = Some m -> m !! G = None -> has_capability D G C = false)
  /\ (forall (m : gmap Z (list Z)) (s : list Z),
        capabilities D = Some m -> m !! G = Some s -> C ∉ s ->
        has_capability D G C = false).
Proof.
  rewrite has_capability_lookup.
  split; [split|split; [|split; [|split]]].
  - destruct (capabilities D) as [m|]; [|discriminate].
    destruct (m !! G) as [s|] eqn:HG; [|discriminate].
    intros Hin. exists m, s.
    split; [reflexivity | split; [exact HG | now apply py_in_elem_of]].
  - intros (m & s & -> & -> & Hin). now apply py_in_elem_of.
  - now intros ->.
  - intros ->. now rewrite lookup_empty.
  - intros m -> ->. reflexivity.
  - intros m s -> -> Hnot. now apply py_in_not_elem_of.
Qed.

(** C6. [has_feature] is false when the feature list is unset, and
    otherwise true exactly for the members of the list. *)
Theorem has_feature_spec (D : VivintDevice) (F : Z) :
  (features D = None -> has_feature D F = false)
  /\ (forall l : list Z,
        features D = Some l -> (has_feature D F = true <-> F ∈ l)).
Proof.
  unfold has_feature. split.
  - now intros ->.
  - intros l ->. rewrite list_or_empty_id. apply py_in_elem_of.
Qed.

(** ** Entities *)

Lemma append_assoc (a b c : string) : (a +:+ b) +:+ c = a +:+ (b +:+ c).
Proof.
  induction a as [|x a IH]; [reflexivity|].
  change (String x ((a +:+ b) +:+ c) = String x (a +:+ (b +:+ c))).
  now rewrite IH.
Qed.

Section EntityFacts.
Context `{Const}.

(** What a device-info record that was built says. *)
Lemma device_info_inv (D : VivintDevice) (info : DeviceInfo.t) :
  device_info D = Ok info ->
  exists (dev : VivintDevice) (ident : string * string),
    parent_or_self D = Some dev
    /\ get_device_id dev = Ok ident
    /\ DeviceInfo.identifiers info = {[ ident ]}
    /\ DeviceInfo.name info = shown_name dev
    /\ DeviceInfo.manufacturer info = manufacturer dev
    /\ DeviceInfo.model info = model dev
    /\ DeviceInfo.sw_version info = software_version dev
    /\ (if isinstance_AlarmPanel dev
        then DeviceInfo.via_device info = None
        else exists (p : VivintDevice) (v : string * string),
               alarm_panel dev = Some p
               /\ get_device_id p = Ok v
               /\ DeviceInfo.via_device info = Some v).
Proof.
  unfold device_info.
  destruct (parent_or_self D) as [dev|]; simpl; [|discriminate].
  destruct (get_device_id dev) as [ident|e] eqn:Hid; simpl; [|discriminate].
  fold (shown_name dev).
  destruct (isinstance_AlarmPanel dev) eqn:Hpanel; simpl.
  - intros [= <-]. exists dev, ident. rewrite Hpanel.
    repeat (split; [first [reflexivity | assumption]|]). reflexivity.
  - destruct (alarm_panel dev) as [p|] eqn:Hp; simpl; [|discriminate].
    destruct (get_device_id p) as [v|e] eqn:Hv; simpl; [|discriminate].
    intros [= <-]. exists dev, ident. rewrite Hpanel.
    repeat (split; [first [reflexivity | assumption]|]). now exists p, v.
Qed.

(** A device-info record is built for an alarm panel that has an
    identity, and for any other device that has an identity and whose
    owning panel has one. *)
Lemma device_info_returns (D dev : VivintDevice) (ident : string * string) :
  parent_or_self D = Some dev ->
  get_device_id dev = Ok ident ->
  (isinstance_AlarmPanel dev = true
   \/ exists (p : VivintDevice) (v : string * string),
        alarm_panel dev = Some p /\ get_device_id p = Ok v) ->
  exists info : DeviceInfo.t, device_info D = Ok info.
Proof.
  intros Hdev Hid Hvia. unfold device_info. rewrite Hdev. simpl. rewrite Hid. simpl.
  destruct (isinstance_AlarmPanel dev) eqn:Hpanel; simpl; [eauto|].
  destruct Hvia as [Hvia | (p & v & Hp & Hv)]; [discriminate|].
  rewrite Hp. simpl. rewrite Hv. simpl. eauto.
Qed.

Lemma VivintBaseEntity_init_inv (D : VivintDevice) (h : VivintHub)
    (desc : EntityDescription) (e : VivintBaseEntity.t) :
  VivintBaseEntity.__init__ D h desc = Ok e ->
  device_info D = Ok (VivintBaseEntity._attr_device_info e)
  /\ VivintBaseEntity.device e = D
  /\ VivintBaseEntity.entity_description e = desc
  /\ VivintBaseEntity._attr_unique_id e =
     match alarm_panel D with
     | Some panel => format (id panel) +:+ "-"
     | None => ""
     end +:+ (format (id D) +:+ "-" +:+ key desc).
Proof.
  unfold VivintBaseEntity.__init__.
  destruct (device_info D) as [info|]; simpl; [|discriminate].
  intros [= <-]. now repeat split.
Qed.

Lemma VivintEntity_init_inv (D : VivintDevice) (h : VivintHub)
    (e : VivintEntity.t) :
  VivintEntity.__init__ D h = Ok e ->
  device_info D = Ok (VivintEntity._attr_device_info e)
  /\ VivintEntity.device e = D.
Proof.
  unfold VivintEntity.__init__.
  destruct (device_info D) as [info|]; simpl; [|discriminate].
  intros [= <-]. now split.
Qed.

(** C8. The unique key of an entity built from device [D] and a
    description with key [K] is the panel's id, a dash, [D]'s id, a dash
    and [K] when [D] has an owning alarm panel, and [D]'s id, a dash and
    [K] when it has none. *)
Theorem unique_id_spec (D : VivintDevice) (h : VivintHub)
    (desc : EntityDescription) (e : VivintBaseEntity.t) :
  VivintBaseEntity.__init__ D h desc = Ok e ->
  VivintBaseEntity._attr_unique_id e =
  match alarm_panel D with
  | Some panel =>
      format (id panel) +:+ "-" +:+ format (id D) +:+ "-" +:+ key desc
  | None => format (id D) +:+ "-" +:+ key desc
  end.
Proof.
  intros Hinit. apply VivintBaseEntity_init_inv in Hinit as (_ & _ & _ & ->).
  destruct (alarm_panel D) as [panel|]; [apply append_assoc | reflexivity].
Qed.

(** The device whose attributes go into the record: the parent of a
    sub-device, the device itself otherwise. *)
Lemma parent_or_self_resolves (D dev : VivintDevice) :
  parent_or_self D = Some dev <->
  (if is_subdevice D then parent D = Some dev else dev = D).
Proof.
  unfold parent_or_self. destruct (is_subdevice D); [reflexivity|].
  split; [now intros [= ->] | now intros ->].
Qed.

Lemma device_info_via_device (D : VivintDevice) (info : DeviceInfo.t) :
  device_info D = Ok info ->
  exists dev : VivintDevice,
    (if is_subdevice D then parent D = Some dev else dev = D)
    /\ via_device_ok dev info.
Proof.
  intros Hinfo.
  destruct (device_info_inv D info Hinfo)
    as (dev & ident & Hdev & _ & _ & _ & _ & _ & _ & Hvia).
  exists dev. split; [now apply parent_or_self_resolves|].
  unfold via_device_ok. destruct (isinstance_AlarmPanel dev).
  - split; [now split | discriminate].
  - destruct Hvia as (p & v & Hp & Hv & Hvia). split.
    + rewrite Hvia. split; discriminate.
    + intros _. now exists p, v.
Qed.

(** C9. In the device-info record of either entity class, [via_device]
    is measured against the parent-resolved device, that is the parent of
    a sub-device and the device itself otherwise: it is [None] exactly
    when that device is an alarm panel, and otherwise it is the identity
    tuple of that device's owning alarm panel. *)
Theorem via_device_spec (D : VivintDevice) (h : VivintHub) :
  (forall (desc : EntityDescription) (e : VivintBaseEntity.t),
      VivintBaseEntity.__init__ D h desc = Ok e ->
      exists dev : VivintDevice,
        (if is_subdevice D then parent D = Some dev else dev = D)
        /\ via_device_ok dev (VivintBaseEntity._attr_device_info e))
  /\ (forall e : VivintEntity.t,
        VivintEntity.__init__ D h = Ok e ->
        exists dev : VivintDevice,
          (if is_subdevice D then parent D = Some dev else dev = D)
          /\ via_device_ok dev (VivintEntity._attr_device_info e)).
Proof.
  split.
  - intros desc e Hinit. apply device_info_via_device.
    now apply VivintBaseEntity_init_inv in Hinit as (? & _).
  - intros e Hinit. apply device_info_via_device.
    now apply VivintEntity_init_inv in Hinit as (? & _).
Qed.

Lemma device_info_name (D : VivintDevice) (info : DeviceInfo.t) :
  device_info D = Ok info ->
  exists dev : VivintDevice,
    (if is_subdevice D then parent D = Some dev else dev = D)
    /\ unnamed_gets_class_name dev info.
Proof.
  intros Hinfo.
  destruct (device_info_inv D info Hinfo)
    as (dev & ident & Hdev & _ & _ & Hname & _).
  exists dev. split; [now apply parent_or_self_resolves|].
  unfold unnamed_gets_class_name.
  rewrite Hname. unfold shown_name. now intros [-> | ->].
Qed.

(** C10. When the parent-resolved device, that is the parent of a
    sub-device and the device itself otherwise, has no name or an empty
    one, the device-info record of either entity class carries the name
    of that device's class. *)
Theorem device_info_name_fallback (D : VivintDevice) (h : VivintHub) :
  (forall (desc : EntityDescription) (e : VivintBaseEntity.t),
      VivintBaseEntity.__init__ D h desc = Ok e ->
      exists dev : VivintDevice,
        (if is_subdevice D then parent D = Some dev else dev = D)
        /\ unnamed_gets_class_name dev (VivintBaseEntity._attr_device_info e))
  /\ (forall e : VivintEntity.t,
        VivintEntity.__init__ D h = Ok e ->
        exists dev : VivintDevice,
          (if is_subdevice D then parent D = Some dev else dev = D)
          /\ unnamed_gets_class_name dev (VivintEntity._attr_device_info e)).
Proof.
  split.
  - intros desc e Hinit. apply device_info_name.
    now apply VivintBaseEntity_init_inv in Hinit as (? & _).
  - intros e Hinit. apply device_info_name.
    now apply VivintEntity_init_inv in Hinit as (? & _).
Qed.
End EntityFacts.

(** ** The hub *)

Ltac run_hub :=
  unfold login, disconnect, verify_mfa, save_session, account_attr,
    data_getitem, _LOGGER_error, try_except, bind, gets, modify, read, call,
    ret, raise in *;
  simpl in *.

Ltac except_cases :=
  repeat match goal with
         | |- context [isinstance ?e ?c] => destruct (isinstance e c); simpl
         end.

Ltac settle_disconnect :=
  simpl;
  repeat match goal with
         | Hb : ?b = true |- context [if ?b then _ else _] => rewrite Hb
         | Hb : ?b = false |- context [if ?b then _ else _] => rewrite Hb
         end;
  simpl; rewrite <- ?app_assoc, ?app_nil_r; simpl;
  repeat split; first [assumption | reflexivity].

Section HubFacts.
Context `{Const} {W : Type} `{External W}.

(** [login] runs from the state in which the flag is already down. *)
Lemma login_resets (ld sub : bool) (st : State W) :
  login ld sub st = login ld sub (with_logged_in false st).
Proof. reflexivity. Qed.

(** Whatever [login] raises, the flag is down afterwards. *)
Lemma login_raise_logged_out (ld sub : bool) (st st' : State W) (e : PyExc) :
  login ld sub st = (Raise e, st') -> logged_in (self st') = false.
Proof.
  run_hub.
  destruct (_data (self st) !! CONF_USERNAME) as [u|]; simpl;
    [|now intros [= _ <-]].
  destruct (_data (self st) !! CONF_PASSWORD) as [p|]; simpl;
    [|now intros [= _ <-]].
  destruct (Account_new u p _ _ (world st)) as [[a|e0] w1]; simpl;
    [|now intros [= _ <-]].
  destruct (Account_connect a ld sub w1) as [[[]|e1] w2]; simpl;
    [discriminate|].
  except_cases; now intros [= _ <-].
Qed.

(** When [login] returns, it returns [True] with the flag up. *)
Lemma login_return_logged_in (ld sub b : bool) (st st' : State W) :
  login ld sub st = (Ok b, st') -> b = true /\ logged_in (self st') = true.
Proof.
  run_hub.
  destruct (_data (self st) !! CONF_USERNAME) as [u|]; simpl; [|discriminate].
  destruct (_data (self st) !! CONF_PASSWORD) as [p|]; simpl; [|discriminate].
  destruct (Account_new u p _ _ (world st)) as [[a|e0] w1]; simpl;
    [|discriminate].
  destruct (Account_connect a ld sub w1) as [[[]|e1] w2]; simpl.
  - now intros [= <- <-].
  - except_cases; discriminate.
Qed.

(** With both credentials stored, a fresh account made and its [connect]
    returning, [login] returns [True], keeps the new account and leaves
    the flag up. *)
Lemma login_connect_ok (ld sub : bool) (st : State W) (u p : string)
    (a : ref) (w1 w2 : W) :
  _data (self st) !! CONF_USERNAME = Some u ->
  _data (self st) !! CONF_PASSWORD = Some p ->
  Account_new u p (_data (self st) !! CONF_REFRESH_TOKEN) (session (self st))
    (world st) = (Ok a, w1) ->
  Account_connect a ld sub w1 = (Ok tt, w2) ->
  exists st' : State W,
    login ld sub st = (Ok true, st')
    /\ logged_in (self st') = true
    /\ account (self st') = Some a
    /\ world st' = w2.
Proof.
  intros Hu Hp Hnew Hconn. run_hub.
  rewrite Hu. simpl. rewrite Hp. simpl. rewrite Hnew. simpl.
  rewrite Hconn. simpl. eexists. repeat split.
Qed.

(** What [connect] raises, [login] raises. *)
Lemma login_connect_raise (ld sub : bool) (st : State W) (u p : string)
    (a : ref) (w1 w2 : W) (e : PyExc) :
  _data (self st) !! CONF_USERNAME = Some u ->
  _data (self st) !! CONF_PASSWORD = Some p ->
  Account_new u p (_data (self st) !! CONF_REFRESH_TOKEN) (session (self st))
    (world st) = (Ok a, w1) ->
  Account_connect a ld sub w1 = (Raise e, w2) ->
  exists st' : State W,
    login ld sub st = (Raise e, st')
    /\ logged_in (self st') = false
    /\ account (self st') = Some a
    /\ world st' = w2.
Proof.
  intros Hu Hp Hnew Hconn. run_hub.
  rewrite Hu. simpl. rewrite Hp. simpl. rewrite Hnew. simpl.
  rewrite Hconn. simpl. except_cases; eexists; repeat split.
Qed.

(** C2. [login] starts by taking the logged-in flag down: it runs as it
    would from the state with the flag down.  If [connect] returns, the
    flag is up and [login] returns [True]; after any exception out of
    [login] the flag is down. *)
Theorem login_logged_in (ld sub : bool) (st : State W) :
  login ld sub st = login ld sub (with_logged_in false st)
  /\ (forall (u p : string) (a : ref) (w1 w2 : W),
        _data (self st) !! CONF_USERNAME = Some u ->
        _data (self st) !! CONF_PASSWORD = Some p ->
        Account_new u p (_data (self st) !! CONF_REFRESH_TOKEN)
          (session (self st)) (world st) = (Ok a, w1) ->
        Account_connect a ld sub w1 = (Ok tt, w2) ->
        exists st' : State W,
          login ld sub st = (Ok true, st') /\ logged_in (self st') = true)
  /\ (forall (e : PyExc) (st' : State W),
        login ld sub st = (Raise e, st') -> logged_in (self st') = false).
Proof.
  split; [apply login_resets | split].
  - intros u p a w1 w2 Hu Hp Hnew Hconn.
    destruct (login_connect_ok ld sub st u p a w1 w2 Hu Hp Hnew Hconn)
      as (st' & Hrun & Hflag & _).
    now exists st'.
  - intros e st'. apply login_raise_logged_out.
Qed.

(** Whatever [verify_mfa] raises, the hub object is as it was; so it is
    before any [login], when there is no account to ask. *)
Lemma verify_mfa_raise_unchanged (code : string) (st st' : State W) (e : PyExc) :
  verify_mfa code st = (Raise e, st') -> self st' = self st.
Proof.
  run_hub. destruct (account (self st)) as [a|]; simpl; [|now intros [= _ <-]].
  destruct (Account_verify_mfa a code (world st)) as [[[]|e1] w']; simpl;
    [discriminate | now intros [= _ <-]].
Qed.

(** C3. When the account's [verify_mfa] returns, the hub's [verify_mfa]
    returns [True] with the logged-in flag up; when it raises, the hub
    raises the same exception, and after any exception out of the hub's
    [verify_mfa] the flag is what it was before the call. *)
Theorem verify_mfa_logged_in (code : string) (st : State W) :
  (forall (a : ref) (w' : W),
      account (self st) = Some a ->
      Account_verify_mfa a code (world st) = (Ok tt, w') ->
      exists st' : State W,
        verify_mfa code st = (Ok true, st') /\ logged_in (self st') = true)
  /\ (forall (a : ref) (e : PyExc) (w' : W),
        account (self st) = Some a ->
        Account_verify_mfa a code (world st) = (Raise e, w') ->
        exists st' : State W, verify_mfa code st = (Raise e, st'))
  /\ (forall (e : PyExc) (st' : State W),
        verify_mfa code st = (Raise e, st') ->
        logged_in (self st') = logged_in (self st)).
Proof.
  split; [|split].
  - intros a w' Ha Hv. run_hub. rewrite Ha. simpl. rewrite Hv. simpl.
    eexists. split; reflexivity.
  - intros a e w' Ha Hv. run_hub. rewrite Ha. simpl. rewrite Hv. simpl.
    eexists. reflexivity.
  - intros e st' Hrun. now rewrite (verify_mfa_raise_unchanged code st st' e Hrun).
Qed.

(** The first of two [disconnect] calls, step by step: what it calls and
    the state it leaves when it returns. *)
Lemma disconnect_return (st st1 : State W) :
  disconnect st = (Ok tt, st1) ->
  exists (a : ref) (w1 w2 w3 : W),
    account (self st) = Some a
    /\ (if Account_connected a (world st)
        then Account_disconnect a (world st) = (Ok tt, w1)
        else w1 = world st)
    /\ (if ClientSession_closed (session (self st)) w1
        then w2 = w1
        else ClientSession_close (session (self st)) w1 = (Ok tt, w2))
    /\ match __undo_listener (self st) with
       | Some f => Callable_call f w2 = (Ok tt, w3)
       | None => w3 = w2
       end
    /\ self st1 = match __undo_listener (self st) with
                  | Some _ => set_undo_listener None (self st)
                  | None => self st
                  end
    /\ world st1 = w3
    /\ calls st1 =
       (calls st
        ++ (if Account_connected a (world st) then [Disconnect a] else [])
        ++ (if ClientSession_closed (session (self st)) w1
            then [] else [CloseSession (session (self st))])
        ++ match __undo_listener (self st) with
           | Some f => [CallListener f]
           | None => []
           end)%list.
Proof.
  run_hub.
  destruct (account (self st)) as [a|]; simpl; [|discriminate].
  destruct (Account_connected a (world st)) eqn:Hconn; simpl.
  - destruct (Account_disconnect a (world st)) as [[[]|e] w1] eqn:Hdisc; simpl;
      [|discriminate].
    destruct (ClientSession_closed (session (self st)) w1) eqn:Hclosed; simpl.
    + destruct (__undo_listener (self st)) as [f|] eqn:Hl; simpl.
      * destruct (Callable_call f w1) as [[[]|e] w3] eqn:Hcall; simpl;
          [|discriminate].
        intros [= <-]. exists a, w1, w1, w3. settle_disconnect.
      * intros [= <-]. exists a, w1, w1, w1. settle_disconnect.
    + destruct (ClientSession_close (session (self st)) w1)
        as [[[]|e] w2] eqn:Hclose; simpl; [|discriminate].
      destruct (__undo_listener (self st)) as [f|] eqn:Hl; simpl.
      * destruct (Callable_call f w2) as [[[]|e] w3] eqn:Hcall; simpl;
          [|discriminate].
        intros [= <-]. exists a, w1, w2, w3. settle_disconnect.
      * intros [= <-]. exists a, w1, w2, w2. settle_disconnect.
  - destruct (ClientSession_closed (session (self st)) (world st)) eqn:Hclosed;
      simpl.
    + destruct (__undo_listener (self st)) as [f|] eqn:Hl; simpl.
      * destruct (Callable_call f (world st)) as [[[]|e] w3] eqn:Hcall; simpl;
          [|discriminate].
        intros [= <-]. exists a, (world st), (world st), w3. settle_disconnect.
      * intros [= <-]. exists a, (world st), (world st), (world st). settle_disconnect.
    + destruct (ClientSession_close (session (self st)) (world st))
        as [[[]|e] w2] eqn:Hclose; simpl; [|discriminate].
      destruct (__undo_listener (self st)) as [f|] eqn:Hl; simpl.
      * destruct (Callable_call f w2) as [[[]|e] w3] eqn:Hcall; simpl;
          [|discriminate].
        intros [= <-]. exists a, (world st), w2, w3. settle_disconnect.
      * intros [= <-]. exists a, (world st), w2, w2. settle_disconnect.
Qed.

(** With the account disconnected, the session closed and no listener
    left, [disconnect] calls nothing and changes nothing. *)
Lemma disconnect_noop (st : State W) (a : ref) :
  account (self st) = Some a ->
  Account_connected a (world st) = false ->
  ClientSession_closed (session (self st)) (world st) = true ->
  __undo_listener (self st) = None ->
  disconnect st = (Ok tt, st).
Proof.
  intros Ha Hconn Hclosed Hl. run_hub.
  rewrite Ha. simpl. rewrite Hconn. simpl. rewrite Hclosed. simpl.
  now rewrite Hl.
Qed.

(** With an account in place, as after any [login] that got to build one,
    [disconnect] returns whenever the calls it makes do. *)
Lemma disconnect_returns (st : State W) (a : ref) :
  account (self st) = Some a ->
  (forall w : W, exists w' : W, Account_disconnect a w = (Ok tt, w')) ->
  (forall w : W, exists w' : W,
      ClientSession_close (session (self st)) w = (Ok tt, w')) ->
  (forall (f : ref) (w : W), exists w' : W, Callable_call f w = (Ok tt, w')) ->
  exists st1 : State W, disconnect st = (Ok tt, st1).
Proof.
  intros Ha Hdisc Hclose Hcall. run_hub. rewrite Ha. simpl.
  destruct (Account_connected a (world st)); simpl.
  - destruct (Hdisc (world st)) as [w1 ->]. simpl.
    destruct (ClientSession_closed (session (self st)) w1); simpl.
    + destruct (__undo_listener (self st)) as [f|]; simpl; [|eauto].
      destruct (Hcall f w1) as [w3 ->]. simpl. eauto.
    + destruct (Hclose w1) as [w2 ->]. simpl.
      destruct (__undo_listener (self st)) as [f|]; simpl; [|eauto].
      destruct (Hcall f w2) as [w3 ->]. simpl. eauto.
  - destruct (ClientSession_closed (session (self st)) (world st)); simpl.
    + destruct (__undo_listener (self st)) as [f|]; simpl; [|eauto].
      destruct (Hcall f (world st)) as [w3 ->]. simpl. eauto.
    + destruct (Hclose (world st)) as [w2 ->]. simpl.
      destruct (__undo_listener (self st)) as [f|]; simpl; [|eauto].
      destruct (Hcall f w2) as [w3 ->]. simpl. eauto.
Qed.

Context {contract : ExternalContract W}.

(** The state a returning [disconnect] leaves is one in which
    [disconnect] has nothing to do. *)
Lemma disconnect_leaves_nothing (st st1 : State W) :
  disconnect st = (Ok tt, st1) ->
  exists a : ref,
    account (self st1) = Some a
    /\ Account_connected a (world st1) = false
    /\ ClientSession_closed (session (self st1)) (world st1) = true
    /\ __undo_listener (self st1) = None.
Proof.
  intros Hrun.
  destruct (disconnect_return st st1 Hrun)
    as (a & w1 & w2 & w3 & Ha & Hstep1 & Hstep2 & Hstep3 & Hself & Hworld & _).
  assert (Hc1 : Account_connected a w1 = false).
  { destruct (Account_connected a (world st)) eqn:Hconn.
    - now apply Account_disconnect_disconnects in Hstep1.
    - now subst w1. }
  assert (Hs2 : ClientSession_closed (session (self st)) w2 = true
                /\ Account_connected a w2 = false).
  { destruct (ClientSession_closed (session (self st)) w1) eqn:Hclosed.
    - now subst w2.
    - split.
      + now apply ClientSession_close_closes in Hstep2.
      + now apply (ClientSession_close_stays_disconnected _ a) in Hstep2. }
  destruct Hs2 as [Hs2 Hc2].
  exists a. rewrite Hworld.
  destruct (__undo_listener (self st)) as [f|] eqn:Hl; rewrite Hself; simpl.
  - repeat split.
    + exact Ha.
    + now apply (Callable_call_stays_disconnected f a w2 w3).
    + now apply (Callable_call_stays_closed f _ w2 w3).
  - subst w3. now repeat split.
Qed.

(** C4. Of two [disconnect] calls in a row, the first runs the teardown
    listener, once, if the hub has one, and the second returns without
    an exception, having called nothing and changed nothing: no account
    disconnect, no session close, no listener. *)
Theorem disconnect_twice (st st1 : State W) :
  disconnect st = (Ok tt, st1) ->
  (exists evs : list Event,
      calls st1 = (calls st ++ evs)%list
      /\ listener_calls evs = match __undo_listener (self st) with
                              | Some f => [f]
                              | None => []
                              end)
  /\ disconnect st1 = (Ok tt, st1).
Proof.
  intros Hrun. split.
  - destruct (disconnect_return st st1 Hrun)
      as (a & w1 & w2 & w3 & _ & _ & _ & _ & _ & _ & Hcalls).
    eexists. split; [exact Hcalls|].
    unfold listener_calls.
    destruct (Account_connected a (world st));
      destruct (ClientSession_closed (session (self st)) w1);
      destruct (__undo_listener (self st)); reflexivity.
  - destruct (disconnect_leaves_nothing st st1 Hrun)
      as (a & Ha & Hconn & Hclosed & Hl).
    now apply (disconnect_noop st1 a).
Qed.
End HubFacts.

(** ** The scripted client keeps the contract *)

Lemma mem_ref_filter_out (a : ref) (l : list ref) :
  mem_ref a (List.filter (fun r => negb (Nat.eqb a r)) l) = false.
Proof.
  unfold mem_ref. induction l as [|r l IH]; simpl; [reflexivity|].
  destruct (Nat.eqb a r) eqn:Har; simpl; [exact IH|].
  now rewrite Har.
Qed.

Lemma sim_contract : @ExternalContract Sim sim_external.
Proof.
  split; simpl.
  - intros a w w' [= <-]. simpl. apply mem_ref_filter_out.
  - intros s w w' [= <-]. unfold mem_ref. simpl. now rewrite Nat.eqb_refl.
  - intros s a w w' [= <-]. now simpl.
  - intros f a w w' [= <-]. now simpl.
  - intros f s w w' [= <-]. now simpl.
Qed.

(** ** The properties on the scenarios *)

Section Scenarios.
Local Existing Instance vivint_const.
Local Existing Instance sim_external.

(** Device A of the documentation: [(DOMAIN, "100-5")]. *)
Lemma get_device_id_top_level_witness :
  get_device_id device_A = Ok ("vivint", "100-5").
Proof. exact (get_device_id_top_level device_A eq_refl). Defined.

(** Device B, whose parent is A, has A's identity. *)
Lemma get_device_id_subdevice_witness :
  get_device_id device_B = Ok ("vivint", "100-5")
  /\ get_device_id device_B = get_device_id device_A.
Proof.
  destruct (get_device_id_subdevice device_B device_A eq_refl eq_refl)
    as [Hid Hsame].
  split; [exact Hid | exact (Hsame eq_refl eq_refl)].
Defined.

(** A sub-device whose own [panel_id] is not its parent's does not have
    its parent's identity. *)
Lemma get_device_id_subdevice_other_panel :
  is_subdevice device_other_panel = true
  /\ parent device_other_panel = Some device_A
  /\ get_device_id device_other_panel = Ok ("vivint", "200-5")
  /\ get_device_id device_A = Ok ("vivint", "100-5")
  /\ get_device_id device_other_panel <> get_device_id device_A.
Proof. repeat split. discriminate. Qed.

(** Nor does a sub-device of a sub-device. *)
Example get_device_id_subdevice_nested :
  is_subdevice device_nested = true
  /\ parent device_nested = Some device_B
  /\ get_device_id device_nested = Ok ("vivint", "100-6")
  /\ get_device_id device_B = Ok ("vivint", "100-5").
Proof. repeat split. Qed.

Lemma has_capability_spec_witness :
  has_capability sensor_12 1 10 = true
  /\ has_capability sensor_12 1 12 = false
  /\ has_capability sensor_12 2 10 = false
  /\ has_capability panel_100 1 10 = false.
Proof.
  split; [|split; [|split]].
  - apply (proj1 (has_capability_spec sensor_12 1 10)).
    exists (<[1%Z := [10%Z; 11%Z]]> ∅), [10%Z; 11%Z].
    split; [reflexivity | split; [reflexivity|]].
    apply list_elem_of_In. simpl. now left.
  - apply (proj2 (proj2 (proj2 (proj2 (has_capability_spec sensor_12 1 12))))
             (<[1%Z := [10%Z; 11%Z]]> ∅) [10%Z; 11%Z]); try reflexivity.
    rewrite list_elem_of_In. simpl. intros [?|[?|[]]]; discriminate.
  - now apply (proj1 (proj2 (proj2 (proj2 (has_capability_spec sensor_12 2 10))))
                 (<[1%Z := [10%Z; 11%Z]]> ∅)).
  - now apply (proj1 (proj2 (has_capability_spec panel_100 1 10))).
Defined.

Lemma has_feature_spec_witness :
  has_feature sensor_12 4 = true /\ has_feature panel_100 4 = false.
Proof.
  split.
  - apply (proj2 (has_feature_spec sensor_12 4) [3%Z; 4%Z] eq_refl).
    apply list_elem_of_In. simpl. now right; left.
  - now apply (proj1 (has_feature_spec panel_100 4)).
Defined.

Lemma unique_id_spec_witness :
  exists e : VivintBaseEntity.t,
    VivintBaseEntity.__init__ sensor_12 hub_0 battery = Ok e
    /\ VivintBaseEntity._attr_unique_id e = "100-12-battery".
Proof.
  eexists. split; [reflexivity|].
  exact (unique_id_spec sensor_12 hub_0 battery _ eq_refl).
Defined.

(** A device without an owning panel: no prefix. *)
Example unique_id_without_panel :
  VivintBaseEntity._attr_unique_id
    <$> (match VivintBaseEntity.__init__ panel_100 hub_0 battery with
         | Ok e => Some e
         | Raise _ => None
         end) = Some "100-battery".
Proof. reflexivity. Qed.

(** The remote is a sub-device of the sensor and has no panel of its own:
    its record is linked to the sensor's panel.  The keypad is a
    sub-device of the panel, which also owns it: its record has no link,
    as the panel's has none. *)
Lemma via_device_spec_witness :
  (exists e : VivintEntity.t,
      VivintEntity.__init__ remote_13 hub_0 = Ok e
      /\ DeviceInfo.via_device (VivintEntity._attr_device_info e)
         = Some ("vivint", "100-100"))
  /\ (exists e : VivintBaseEntity.t,
        VivintBaseEntity.__init__ keypad_16 hub_0 battery = Ok e
        /\ DeviceInfo.via_device (VivintBaseEntity._attr_device_info e) = None).
Proof.
  split.
  - eexists. split; [reflexivity|].
    destruct (proj2 (via_device_spec remote_13 hub_0) _ eq_refl)
      as (dev & Hres & _ & Hvia).
    assert (Hdev : Some sensor_12 = Some dev) by exact Hres.
    injection Hdev as <-.
    destruct (Hvia eq_refl) as (p & v & Hp & Hv & Hlink).
    assert (Hp' : Some panel_100 = Some p) by exact Hp.
    injection Hp' as <-.
    assert (Hv' : Ok ("vivint", "100-100") = Ok v) by exact Hv.
    injection Hv' as <-.
    exact Hlink.
  - eexists. split; [reflexivity|].
    destruct (proj1 (via_device_spec keypad_16 hub_0) battery _ eq_refl)
      as (dev & Hres & Hnone & _).
    assert (Hdev : Some panel_100 = Some dev) by exact Hres.
    injection Hdev as <-.
    exact (proj2 Hnone eq_refl).
Defined.

(** The sensor is reached through its panel; the panel through
    nothing. *)
Example via_device_of_sensor :
  DeviceInfo.via_device
    <$> (match device_info sensor_12 with Ok i => Some i | Raise _ => None end)
  = Some (Some ("vivint", "100-100")).
Proof. reflexivity. Qed.

Example via_device_of_panel :
  DeviceInfo.via_device
    <$> (match device_info panel_100 with Ok i => Some i | Raise _ => None end)
  = Some None.
Proof. reflexivity. Qed.

(** A device that is no panel and has no owning panel gets no record:
    [get_device_id] is handed [None]. *)
Example device_info_without_panel :
  device_info device_A = Raise (NoneType_has_no "panel_id").
Proof. reflexivity. Qed.

(** The remote has a name and a class of its own, and its parent, the
    sensor, has an empty name: the record carries the name of the sensor's
    class.  The keypad's parent, the panel, has no name: the record
    carries the name of the panel's class. *)
Lemma device_info_name_fallback_witness :
  (exists e : VivintBaseEntity.t,
      VivintBaseEntity.__init__ remote_13 hub_0 battery = Ok e
      /\ DeviceInfo.name (VivintBaseEntity._attr_device_info e)
         = "WirelessSensor")
  /\ (exists e : VivintEntity.t,
        VivintEntity.__init__ keypad_16 hub_0 = Ok e
        /\ DeviceInfo.name (VivintEntity._attr_device_info e) = "AlarmPanel").
Proof.
  split.
  - eexists. split; [reflexivity|].
    destruct (proj1 (device_info_name_fallback remote_13 hub_0) battery _ eq_refl)
      as (dev & Hres & Hname).
    assert (Hdev : Some sensor_12 = Some dev) by exact Hres.
    injection Hdev as <-.
    exact (Hname (or_intror eq_refl)).
  - eexists. split; [reflexivity|].
    destruct (proj2 (device_info_name_fallback keypad_16 hub_0) _ eq_refl)
      as (dev & Hres & Hname).
    assert (Hdev : Some panel_100 = Some dev) by exact Hres.
    injection Hdev as <-.
    exact (Hname (or_introl eq_refl)).
Defined.

(** The sensor's name is empty, the panel's is unset. *)
Example name_of_sensor :
  DeviceInfo.name
    <$> (match device_info sensor_12 with Ok i => Some i | Raise _ => None end)
  = Some "WirelessSensor".
Proof. reflexivity. Qed.

Example name_of_panel :
  DeviceInfo.name
    <$> (match device_info panel_100 with Ok i => Some i | Raise _ => None end)
  = Some "AlarmPanel".
Proof. reflexivity. Qed.

(** [login] on a hub whose flag was up: with [connect] returning the
    flag is up again, with [connect] asking for MFA it is down. *)
Lemma login_logged_in_witness :
  (exists st' : State Sim,
      login true true (state_0 []) = (Ok true, st')
      /\ logged_in (self st') = true)
  /\ logged_in (self (after (login true true (state_0 [mfa_required])))) = false.
Proof.
  split.
  - destruct (login_logged_in true true (state_0 [])) as (_ & Hok & _).
    apply (Hok "user" "secret" 1
             {| sim_next := 2; sim_connected := []; sim_closed := [];
                sim_script := [] |}
             {| sim_next := 2; sim_connected := [1]; sim_closed := [];
                sim_script := [] |}); reflexivity.
  - destruct (login_logged_in true true (state_0 [mfa_required]))
      as (_ & _ & Hraise).
    apply (Hraise (VivintSkyApiMfaRequiredError "MFA required")).
    vm_compute. reflexivity.
Defined.

(** After [login] asked for MFA: a code that is accepted puts the flag
    up, one that is refused leaves it down. *)
Lemma verify_mfa_logged_in_witness :
  (exists st' : State Sim,
      verify_mfa "123456" (after (login true true (state_0 [mfa_required])))
      = (Ok true, st')
      /\ logged_in (self st') = true)
  /\ logged_in
       (self (after (verify_mfa "000000"
                       (after (login true true
                                 (state_0 [mfa_required; wrong_code]))))))
     = false.
Proof.
  split.
  - destruct (verify_mfa_logged_in "123456"
                (after (login true true (state_0 [mfa_required]))))
      as (Hok & _ & _).
    apply (Hok 1 {| sim_next := 2; sim_connected := [1]; sim_closed := [];
                    sim_script := [] |}); vm_compute; reflexivity.
  - destruct (verify_mfa_logged_in "000000"
                (after (login true true (state_0 [mfa_required; wrong_code]))))
      as (_ & _ & Hraise).
    rewrite (Hraise (VivintSkyApiError "Invalid code")
               (after (verify_mfa "000000"
                         (after (login true true
                                   (state_0 [mfa_required; wrong_code]))))));
      vm_compute; reflexivity.
Defined.

(** [login], then [disconnect] twice. *)
Lemma disconnect_twice_witness :
  disconnect logged_in_state = (Ok tt, disconnected_state)
  /\ (exists evs : list Event,
        calls disconnected_state = (calls logged_in_state ++ evs)%list
        /\ listener_calls evs = [7])
  /\ disconnect disconnected_state = (Ok tt, disconnected_state).
Proof.
  assert (Hrun : disconnect logged_in_state = (Ok tt, disconnected_state))
    by (vm_compute; reflexivity).
  split; [exact Hrun|].
  exact (disconnect_twice (contract := sim_contract)
           logged_in_state disconnected_state Hrun).
Defined.

(** What left the hub over the three calls, in order. *)
Example calls_of_login_and_two_disconnects :
  calls (after (disconnect disconnected_state))
  = [NewAccount "user" "secret" None 0; Connect 1 true true;
     Disconnect 1; CloseSession 0; CallListener 7].
Proof. vm_compute. reflexivity. Qed.
End Scenarios.

(** * Further properties *)

(** ** [login] *)

Ltac login_cases st ld sub :=
  run_hub;
  destruct (_data (self st) !! CONF_USERNAME) as [?u|] eqn:?Hu; simpl;
  [ destruct (_data (self st) !! CONF_PASSWORD) as [?p|] eqn:?Hp; simpl;
    [ match goal with
      | |- context [Account_new ?x1 ?x2 ?x3 ?x4 ?x5] =>
          destruct (Account_new x1 x2 x3 x4 x5) as [[?a|?e] ?w] eqn:?Hnew; simpl;
          [ match goal with
            | |- context [Account_connect ?y1 ld sub ?y2] =>
                destruct (Account_connect y1 ld sub y2) as [[[]|?e] ?w] eqn:?Hconn;
                simpl;
                [ | except_cases ]
            end
          | ]
      end
    | ]
  | ].

Section LoginFacts.
Context `{Const} {W : Type} `{External W}.

(** X1. What [connect] raises, [login] raises, after the two calls that
    built and connected the account and at most one logged line, chosen
    as the [except] clauses choose it, subclasses included: none for a
    request for MFA; "Invalid credentials" for any other authentication
    error; "Unable to connect to the Vivint API" for any other API error
    and for a response or connector error; none for an exception that is
    none of these. *)
Theorem login_connect_failure (ld sub : bool) (st : State W) (u p : string)
    (a : ref) (w1 w2 : W) (e : PyExc) :
  _data (self st) !! CONF_USERNAME = Some u ->
  _data (self st) !! CONF_PASSWORD = Some p ->
  Account_new u p (_data (self st) !! CONF_REFRESH_TOKEN) (session (self st))
    (world st) = (Ok a, w1) ->
  Account_connect a ld sub w1 = (Raise e, w2) ->
  exists st' : State W,
    login ld sub st = (Raise e, st')
    /\ calls st' =
       (calls st
        ++ [NewAccount u p (_data (self st) !! CONF_REFRESH_TOKEN)
              (session (self st));
            Connect a ld sub]
        ++ (if isinstance e VivintSkyApiMfaRequiredError_class then []
            else if isinstance e VivintSkyApiAuthenticationError_class then
              [LogError "Invalid credentials"]
            else if isinstance e VivintSkyApiError_class
                    || isinstance e ClientResponseError_class
                    || isinstance e ClientConnectorError_class then
              [LogError "Unable to connect to the Vivint API"]
            else []))%list.
Proof.
  intros Hu Hp Hnew Hconn. run_hub.
  rewrite Hu. simpl. rewrite Hp. simpl. rewrite Hnew. simpl.
  rewrite Hconn. simpl.
  except_cases; eexists; (split; [reflexivity|]); simpl;
    rewrite <- ?app_assoc; simpl; rewrite ?app_nil_r; reflexivity.
Qed.

(** X2. Without a stored username, or with one and without a stored
    password, [login] raises [KeyError] for the missing key; nothing has
    been called, no account has been made, and only the flag has been
    taken down. *)
Theorem login_missing_credentials (ld sub : bool) (st : State W) :
  (_data (self st) !! CONF_USERNAME = None ->
   login ld sub st = (Raise (KeyError CONF_USERNAME), with_logged_in false st))
  /\ (forall u : string,
        _data (self st) !! CONF_USERNAME = Some u ->
        _data (self st) !! CONF_PASSWORD = None ->
        login ld sub st
        = (Raise (KeyError CONF_PASSWORD), with_logged_in false st)).
Proof.
  split.
  - intros Hu. run_hub. now rewrite Hu.
  - intros u Hu Hp. run_hub. rewrite Hu. simpl. now rewrite Hp.
Qed.

(** X3. However [login] ends, it has left the stored data, the session
    and the teardown listener as they were, and what it has called is at
    most three things, each of them building an account, connecting one or
    logging a line: it disconnects nothing and closes nothing. *)
Theorem login_only_builds_and_connects (ld sub : bool) (st : State W) :
  same_setup (self st) (self (snd (login ld sub st)))
  /\ __undo_listener (self (snd (login ld sub st))) = __undo_listener (self st)
  /\ exists evs : list Event,
       calls (snd (login ld sub st)) = (calls st ++ evs)%list
       /\ forallb login_call evs = true
       /\ length evs <= 3.
Proof.
  unfold same_setup.
  login_cases st ld sub;
    (split; [split; reflexivity|]); (split; [reflexivity|]);
    rewrite <- ?app_assoc; simpl;
    first [ exists []; rewrite app_nil_r; simpl; repeat split; lia
          | eexists; split; [reflexivity|]; simpl; split; [reflexivity|lia] ].
Qed.

(** X4. After a [login] whose [connect] raised, a [verify_mfa] that the
    account accepts leaves the hub logged in on the account that [login]
    built. *)
Theorem login_then_verify_mfa (ld sub : bool) (code : string) (st : State W)
    (u p : string) (a : ref) (w1 w2 w3 : W) (e : PyExc) :
  _data (self st) !! CONF_USERNAME = Some u ->
  _data (self st) !! CONF_PASSWORD = Some p ->
  Account_new u p (_data (self st) !! CONF_REFRESH_TOKEN) (session (self st))
    (world st) = (Ok a, w1) ->
  Account_connect a ld sub w1 = (Raise e, w2) ->
  Account_verify_mfa a code w2 = (Ok tt, w3) ->
  exists st1 st2 : State W,
    login ld sub st = (Raise e, st1)
    /\ logged_in (self st1) = false
    /\ verify_mfa code st1 = (Ok true, st2)
    /\ logged_in (self st2) = true
    /\ account (self st2) = Some a
    /\ world st2 = w3.
Proof.
  intros Hu Hp Hnew Hconn Hmfa.
  destruct (login_connect_raise ld sub st u p a w1 w2 e Hu Hp Hnew Hconn)
    as (st1 & Hlogin & Hflag & Hacc & Hworld).
  exists st1. eexists. split; [exact Hlogin|]. split; [exact Hflag|].
  clear Hlogin. run_hub. rewrite Hacc. simpl. rewrite Hworld, Hmfa. simpl.
  repeat split. exact Hacc.
Qed.
End LoginFacts.

(** ** [disconnect], [verify_mfa] and the update method *)

Ltac disconnect_cases :=
  run_hub; repeat (case_match; simpl in *; simplify_eq).

Section TeardownFacts.
Context `{Const} {W : Type} `{External W}.

(** X5. On a hub that has no account yet, [disconnect] raises the
    [AttributeError] of reading [connected] off [None]: it closes no
    session, runs no listener and leaves everything as it was. *)
Theorem disconnect_without_account (st : State W) :
  account (self st) = None ->
  disconnect st = (Raise (NoneType_has_no "connected"), st).
Proof. intros Hacc. run_hub. now rewrite Hacc. Qed.

(** X6. However [disconnect] ends, the stored data, the session, the
    account and the logged-in flag are what they were.  When it returns
    the hub has no listener left; when it raises, also from the listener
    itself, the listener is still the one it had. *)
Theorem disconnect_keeps_hub (st : State W) :
  same_setup (self st) (self (snd (disconnect st)))
  /\ account (self (snd (disconnect st))) = account (self st)
  /\ logged_in (self (snd (disconnect st))) = logged_in (self st)
  /\ match fst (disconnect st) with
     | Ok _ => __undo_listener (self (snd (disconnect st))) = None
     | Raise _ =>
         __undo_listener (self (snd (disconnect st))) = __undo_listener (self st)
     end.
Proof.
  unfold same_setup.
  disconnect_cases; repeat split; first [reflexivity | assumption].
Qed.

(** X7. A [disconnect] that returns has called, in this order and nothing
    else: the account's [disconnect] if the account was connected, the
    session's [close] if the session was not closed once the account had
    been dealt with, and the listener if the hub had one. *)
Theorem disconnect_calls (st st1 : State W) :
  disconnect st = (Ok tt, st1) ->
  exists a : ref,
    account (self st) = Some a
    /\ calls st1 =
       (calls st
        ++ (if Account_connected a (world st) then [Disconnect a] else [])
        ++ (if ClientSession_closed (session (self st))
                 (if Account_connected a (world st)
                  then snd (Account_disconnect a (world st))
                  else world st)
            then []
            else [CloseSession (session (self st))])
        ++ match __undo_listener (self st) with
           | Some f => [CallListener f]
           | None => []
           end)%list.
Proof.
  intros Hrun.
  destruct (disconnect_return st st1 Hrun)
    as (a & w1 & w2 & w3 & Ha & Hstep1 & _ & _ & _ & _ & Hcalls).
  exists a. split; [exact Ha|]. rewrite Hcalls.
  destruct (Account_connected a (world st)).
  - now rewrite Hstep1.
  - now subst w1.
Qed.

(** X8. [verify_mfa] calls the account's [verify_mfa] once when the hub has
    an account and calls nothing when it has none, in which case it raises
    the [AttributeError] of reading [verify_mfa] off [None]; it never logs,
    and it leaves the stored data, the session, the account and the
    listener as they were. *)
Theorem verify_mfa_calls (code : string) (st : State W) :
  same_setup (self st) (self (snd (verify_mfa code st)))
  /\ account (self (snd (verify_mfa code st))) = account (self st)
  /\ __undo_listener (self (snd (verify_mfa code st))) = __undo_listener (self st)
  /\ calls (snd (verify_mfa code st)) =
     (calls st ++ match account (self st) with
                  | Some a => [VerifyMfa a code]
                  | None => []
                  end)%list
  /\ (account (self st) = None ->
      verify_mfa code st = (Raise (NoneType_has_no "verify_mfa"), st)).
Proof.
  unfold same_setup. run_hub.
  destruct (account (self st)) as [a|] eqn:Hacc; simpl.
  - destruct (Account_verify_mfa a code (world st)) as [[[]|e] w']; simpl;
      repeat split; first [assumption | discriminate].
  - rewrite app_nil_r. repeat split; assumption.
Qed.

(** X9. The coordinator's update method hands on what the account's
    [refresh] returns or raises and leaves the hub object alone; without an
    account it raises the [AttributeError] of reading [refresh] off [None]
    and calls nothing. *)
Theorem async_update_data_forwards (st : State W) :
  (forall a : ref,
      account (self st) = Some a ->
      fst (_async_update_data st) = fst (Account_refresh a (world st))
      /\ world (snd (_async_update_data st)) = snd (Account_refresh a (world st))
      /\ calls (snd (_async_update_data st)) = (calls st ++ [Refresh a])%list)
  /\ (account (self st) = None ->
      _async_update_data st = (Raise (NoneType_has_no "refresh"), st))
  /\ self (snd (_async_update_data st)) = self st.
Proof.
  unfold _async_update_data. run_hub.
  destruct (account (self st)) as [a|]; simpl.
  - split; [|split; [discriminate|]].
    + intros ? [= <-]. now destruct (Account_refresh a (world st)).
    + now destruct (Account_refresh a (world st)) as [[] ?].
  - split; [discriminate | split; reflexivity].
Qed.

Context {contract : ExternalContract W}.

(** X10. The hub never makes a second session: a [login] that follows a
    returning [disconnect] builds its account on the session the hub had
    from the start, which by then is closed. *)
Theorem login_after_disconnect (ld sub : bool) (st st1 : State W)
    (u p : string) :
  disconnect st = (Ok tt, st1) ->
  _data (self st) !! CONF_USERNAME = Some u ->
  _data (self st) !! CONF_PASSWORD = Some p ->
  ClientSession_closed (session (self st)) (world st1) = true
  /\ exists evs : list Event,
       calls (snd (login ld sub st1)) =
       (calls st1
        ++ NewAccount u p (_data (self st) !! CONF_REFRESH_TOKEN)
             (session (self st)) :: evs)%list.
Proof.
  intros Hrun Hu Hp.
  destruct (disconnect_leaves_nothing st st1 Hrun) as (a & _ & _ & Hclosed & _).
  destruct (disconnect_return st st1 Hrun)
    as (_ & _ & _ & _ & _ & _ & _ & _ & Hself & _ & _).
  assert (Hdata : _data (self st1) = _data (self st)).
  { rewrite Hself. now destruct (__undo_listener (self st)). }
  assert (Hsession : session (self st1) = session (self st)).
  { rewrite Hself. now destruct (__undo_listener (self st)). }
  rewrite Hsession in Hclosed. split; [exact Hclosed|].
  rewrite <- Hdata in Hu, Hp. rewrite <- Hdata, <- Hsession.
  clear Hrun Hself Hdata Hsession Hclosed.
  run_hub. rewrite Hu. simpl. rewrite Hp. simpl.
  destruct (Account_new u p _ _ (world st1)) as [[a'|e0] w1]; simpl.
  - destruct (Account_connect a' ld sub w1) as [[[]|e1] w2]; simpl;
      [|except_cases]; rewrite <- ?app_assoc; simpl; eauto.
  - eauto.
Qed.
End TeardownFacts.

(** ** Device identity and entities *)

Lemma append_inj_r (a b c : string) : a +:+ b = a +:+ c -> b = c.
Proof.
  induction a as [|x a IH]; [trivial|].
  change (String x (a +:+ b) = String x (a +:+ c) -> b = c).
  intros [= Heq]. now apply IH.
Qed.

Lemma truthy_str_nonempty (s : string) : s <> "" -> truthy_str (Some s) = true.
Proof. intros Hs. simpl. now destruct s. Qed.

Section EntityMore.
Context `{Const}.

(** When and how [get_device_id] fails. *)
Lemma get_device_id_raise (D : VivintDevice) (e : PyExc) :
  get_device_id D = Raise e <->
  is_subdevice D = true /\ parent D = None /\ e = NoneType_has_no "id".
Proof.
  unfold get_device_id.
  destruct (is_subdevice D); [destruct (parent D) as [P|]|]; simpl.
  - split; [discriminate | now intros (_ & [=] & _)].
  - split; [now intros [= <-] | now intros (_ & _ & ->)].
  - split; [discriminate | now intros ([=] & _)].
Qed.

(** X11. [get_device_id] fails only for a device that says it is a
    sub-device and has no parent, with the [AttributeError] of reading [id]
    off [None]; whenever it returns, the first component is [DOMAIN]. *)
Theorem get_device_id_raises_iff (D : VivintDevice) :
  (forall e : PyExc,
      get_device_id D = Raise e <->
      is_subdevice D = true /\ parent D = None /\ e = NoneType_has_no "id")
  /\ (forall ident : string * string,
        get_device_id D = Ok ident -> ident.1 = DOMAIN).
Proof.
  split; [intros e; apply get_device_id_raise|].
  unfold get_device_id. intros ident.
  destruct (is_subdevice D); [destruct (parent D) as [P|]|]; simpl;
    first [discriminate | now intros [= <-]].
Qed.

(** X12. The device-info record of a sub-device is read off its parent
    alone: when the parent is not itself a sub-device, the sub-device gets
    the very record the parent gets, or fails as the parent does. *)
Theorem device_info_of_subdevice (D P : VivintDevice) :
  is_subdevice D = true ->
  parent D = Some P ->
  is_subdevice P = false ->
  device_info D = device_info P.
Proof.
  intros Hsub Hpar HP. unfold device_info, parent_or_self.
  now rewrite Hsub, Hpar, HP.
Qed.

(** X13. A device-info record is built exactly when the parent-resolved
    device, that is the parent of a sub-device and the device itself
    otherwise, is there and has an identity and, unless it is an alarm
    panel, has an owning panel that has an identity; every failure is the
    [AttributeError] of reading [panel_id] or [id] off [None]. *)
Theorem device_info_builds_iff (D : VivintDevice) :
  ((exists info : DeviceInfo.t, device_info D = Ok info) <->
   exists (dev : VivintDevice) (ident : string * string),
     (if is_subdevice D then parent D = Some dev else dev = D)
     /\ get_device_id dev = Ok ident
     /\ (isinstance_AlarmPanel dev = true
         \/ exists (p : VivintDevice) (v : string * string),
              alarm_panel dev = Some p /\ get_device_id p = Ok v))
  /\ (forall e : PyExc,
        device_info D = Raise e ->
        e = NoneType_has_no "panel_id" \/ e = NoneType_has_no "id").
Proof.
  split; [split|].
  - intros [info Hinfo].
    destruct (device_info_inv D info Hinfo)
      as (dev & ident & Hdev & Hid & _ & _ & _ & _ & _ & Hvia).
    exists dev, ident.
    split; [now apply parent_or_self_resolves | split; [exact Hid|]].
    destruct (isinstance_AlarmPanel dev); [now left | right].
    destruct Hvia as (p & v & Hp & Hv & _). now exists p, v.
  - intros (dev & ident & Hdev & Hid & Hvia).
    apply parent_or_self_resolves in Hdev.
    exact (device_info_returns D dev ident Hdev Hid Hvia).
  - intros e. unfold device_info.
    destruct (parent_or_self D) as [dev|]; simpl; [|intros [= <-]; now left].
    destruct (get_device_id dev) as [ident|e0] eqn:Hid; simpl.
    + destruct (isinstance_AlarmPanel dev); simpl; [discriminate|].
      destruct (alarm_panel dev) as [p|]; simpl; [|intros [= <-]; now left].
      destruct (get_device_id p) as [v|e1] eqn:Hv; simpl; [discriminate|].
      intros [= <-]. right.
      now apply get_device_id_raise in Hv as (_ & _ & ->).
    + intros [= <-]. right.
      now apply get_device_id_raise in Hid as (_ & _ & ->).
Qed.

(** X14. Two entities of one device whose descriptions have different
    keys have different unique keys. *)
Theorem unique_id_separates_keys (D : VivintDevice) (h h' : VivintHub)
    (desc desc' : EntityDescription) (e e' : VivintBaseEntity.t) :
  VivintBaseEntity.__init__ D h desc = Ok e ->
  VivintBaseEntity.__init__ D h' desc' = Ok e' ->
  key desc <> key desc' ->
  VivintBaseEntity._attr_unique_id e <> VivintBaseEntity._attr_unique_id e'.
Proof.
  intros Hinit Hinit' Hkey Heq. apply Hkey.
  apply VivintBaseEntity_init_inv in Hinit as (_ & _ & _ & Hid).
  apply VivintBaseEntity_init_inv in Hinit' as (_ & _ & _ & Hid').
  rewrite Hid, Hid' in Heq.
  apply append_inj_r in Heq. apply append_inj_r in Heq.
  now apply (append_inj_r "-").
Qed.

(** X15. The name in a device-info record is the own name of the
    parent-resolved device, that is of the parent of a sub-device and of
    the device itself otherwise, when that name is a non-empty string; and
    it is never the empty string as long as that device's class has a
    name. *)
Theorem device_info_name_kept (D dev : VivintDevice) (info : DeviceInfo.t) :
  device_info D = Ok info ->
  (if is_subdevice D then parent D = Some dev else dev = D) ->
  (forall s : string,
      name dev = Some s -> s <> "" -> DeviceInfo.name info = s)
  /\ (type_name dev <> "" -> DeviceInfo.name info <> "").
Proof.
  intros Hinfo Hdev. apply parent_or_self_resolves in Hdev.
  destruct (device_info_inv D info Hinfo)
    as (dev' & ident & Hdev' & _ & _ & Hname & _).
  assert (dev' = dev) as -> by congruence.
  rewrite Hname. unfold shown_name. split.
  - intros s Hs Hne. rewrite Hs. now rewrite (truthy_str_nonempty s Hne).
  - intros Hcls. destruct (name dev) as [s|]; [|exact Hcls].
    destruct s as [|c s]; simpl; [exact Hcls | discriminate].
Qed.

(** X16. A device that is not a sub-device and has no owning panel gets
    an entity only if it is an alarm panel: then the unique key has no
    prefix and there is no [via_device]; any other such device makes both
    constructors raise the [AttributeError] of reading [panel_id] off
    [None]. *)
Theorem entity_without_panel (D : VivintDevice) (h : VivintHub)
    (desc : EntityDescription) :
  is_subdevice D = false ->
  alarm_panel D = None ->
  (isinstance_AlarmPanel D = true ->
   exists e : VivintBaseEntity.t,
     VivintBaseEntity.__init__ D h desc = Ok e
     /\ VivintBaseEntity._attr_unique_id e = format (id D) +:+ "-" +:+ key desc
     /\ DeviceInfo.via_device (VivintBaseEntity._attr_device_info e) = None)
  /\ (isinstance_AlarmPanel D = false ->
      VivintBaseEntity.__init__ D h desc = Raise (NoneType_has_no "panel_id")
      /\ VivintEntity.__init__ D h = Raise (NoneType_has_no "panel_id")).
Proof.
  intros Hsub Hpanel.
  unfold VivintBaseEntity.__init__, VivintEntity.__init__, device_info,
    parent_or_self.
  rewrite Hsub, Hpanel. simpl. unfold get_device_id. rewrite Hsub. simpl.
  split; intros ->; simpl.
  - eexists. repeat split.
  - split; reflexivity.
Qed.
End EntityMore.

(** ** Unique keys and identities tell devices apart *)

Lemma all_digits_uint (d : Decimal.uint) :
  all_digits (NilEmpty.string_of_uint d) = true.
Proof. induction d; simpl; auto. Qed.

Lemma all_digits_uint_nilzero (d : Decimal.uint) :
  all_digits (NilZero.string_of_uint d) = true
  /\ NilZero.string_of_uint d <> "".
Proof.
  destruct d; (split; [|discriminate]);
    first [reflexivity | apply (all_digits_uint (Decimal.D0 d))
          | apply (all_digits_uint (Decimal.D1 d))
          | apply (all_digits_uint (Decimal.D2 d))
          | apply (all_digits_uint (Decimal.D3 d))
          | apply (all_digits_uint (Decimal.D4 d))
          | apply (all_digits_uint (Decimal.D5 d))
          | apply (all_digits_uint (Decimal.D6 d))
          | apply (all_digits_uint (Decimal.D7 d))
          | apply (all_digits_uint (Decimal.D8 d))
          | apply (all_digits_uint (Decimal.D9 d))].
Qed.

(** A run of digits ends at the first dash. *)
Lemma digits_dash (u1 : string) :
  forall u2 k1 k2 : string,
    all_digits u1 = true ->
    all_digits u2 = true ->
    u1 +:+ String "-" k1 = u2 +:+ String "-" k2 ->
    u1 = u2 /\ k1 = k2.
Proof.
  induction u1 as [|c u1 IH]; intros [|c' u2] k1 k2 H1 H2.
  - now intros [= ->].
  - intros [= <- _]. simpl in H2. discriminate.
  - intros [= -> _]. simpl in H1. discriminate.
  - intros [= <- Heq]. simpl in H1, H2.
    apply andb_prop in H1 as [_ H1]. apply andb_prop in H2 as [_ H2].
    destruct (IH u2 k1 k2 H1 H2 Heq) as [-> ->]. now split.
Qed.

(** So does a formatted integer, sign included. *)
Lemma int_dash (i1 i2 : Decimal.int) (k1 k2 : string) :
  NilZero.string_of_int i1 +:+ String "-" k1
  = NilZero.string_of_int i2 +:+ String "-" k2 ->
  NilZero.string_of_int i1 = NilZero.string_of_int i2 /\ k1 = k2.
Proof.
  destruct i1 as [d1|d1], i2 as [d2|d2]; unfold NilZero.string_of_int;
    destruct (all_digits_uint_nilzero d1) as [H1 N1];
    destruct (all_digits_uint_nilzero d2) as [H2 N2].
  - now apply digits_dash.
  - destruct (NilZero.string_of_uint d1) as [|c u1]; [congruence|].
    intros [= -> _]. simpl in H1. discriminate.
  - destruct (NilZero.string_of_uint d2) as [|c u2]; [congruence|].
    intros [= <- _]. simpl in H2. discriminate.
  - intros [= Heq]. destruct (digits_dash _ _ _ _ H1 H2 Heq) as [-> ->].
    now split.
Qed.

Lemma to_int_printable (z : Z) :
  Z.to_int z <> Decimal.Pos Decimal.Nil /\ Z.to_int z <> Decimal.Neg Decimal.Nil.
Proof.
  destruct z as [|q|q]; simpl; split; try discriminate;
    intros [= Hq]; now apply (Unsigned.to_uint_nonnil q).
Qed.

(** Different integers are formatted differently. *)
Lemma format_int_inj (z1 z2 : Z) :
  format (PyInt z1) = format (PyInt z2) -> z1 = z2.
Proof.
  simpl. intros Heq. apply to_int_inj.
  destruct (to_int_printable z1) as [P1 N1].
  destruct (to_int_printable z2) as [P2 N2].
  pose proof (NilZero.isi (Z.to_int z1) P1 N1) as E1.
  pose proof (NilZero.isi (Z.to_int z2) P2 N2) as E2.
  rewrite Heq in E1. congruence.
Qed.

Lemma format_int_dash (z1 z2 : Z) (k1 k2 : string) :
  format (PyInt z1) +:+ "-" +:+ k1 = format (PyInt z2) +:+ "-" +:+ k2 ->
  z1 = z2 /\ k1 = k2.
Proof.
  intros Heq. apply int_dash in Heq as [Hz Hk].
  split; [now apply format_int_inj | exact Hk].
Qed.

Section Uniqueness.
Context `{Const}.

(** X17. Among devices that are not sub-devices and whose ids and panel
    ids are integers, the identity tuple tells the panel id and the id:
    two such devices with the same tuple have the same panel id and the
    same id. *)
Theorem get_device_id_tells_apart (D1 D2 : VivintDevice) (p1 z1 p2 z2 : Z) :
  is_subdevice D1 = false ->
  is_subdevice D2 = false ->
  panel_id D1 = PyInt p1 -> id D1 = PyInt z1 ->
  panel_id D2 = PyInt p2 -> id D2 = PyInt z2 ->
  get_device_id D1 = get_device_id D2 ->
  p1 = p2 /\ z1 = z2.
Proof.
  intros Hs1 Hs2 Hp1 Hz1 Hp2 Hz2. unfold get_device_id.
  rewrite Hs1, Hs2, Hp1, Hz1, Hp2, Hz2. simpl rbind.
  intros [= Heq]. apply int_dash in Heq as [Hp Hz].
  split; now apply format_int_inj.
Qed.

(** X18. Among the entities of devices that have the same owning panel
    and integer ids, the unique key tells the device id and the
    description key: entities with the same unique key have both in
    common. *)
Theorem unique_id_tells_apart (D1 D2 : VivintDevice) (h1 h2 : VivintHub)
    (desc1 desc2 : EntityDescription) (e1 e2 : VivintBaseEntity.t)
    (z1 z2 : Z) :
  VivintBaseEntity.__init__ D1 h1 desc1 = Ok e1 ->
  VivintBaseEntity.__init__ D2 h2 desc2 = Ok e2 ->
  alarm_panel D1 = alarm_panel D2 ->
  id D1 = PyInt z1 ->
  id D2 = PyInt z2 ->
  VivintBaseEntity._attr_unique_id e1 = VivintBaseEntity._attr_unique_id e2 ->
  z1 = z2 /\ key desc1 = key desc2.
Proof.
  intros Hinit1 Hinit2 Hpanel Hz1 Hz2 Heq.
  apply VivintBaseEntity_init_inv in Hinit1 as (_ & _ & _ & Hid1).
  apply VivintBaseEntity_init_inv in Hinit2 as (_ & _ & _ & Hid2).
  rewrite Hid1, Hid2, Hpanel, Hz1, Hz2 in Heq.
  apply append_inj_r in Heq. now apply format_int_dash.
Qed.
End Uniqueness.

(** ** The further properties on the scenarios *)

Section MoreScenarios.
Local Existing Instance vivint_const.
Local Existing Instance sim_external.

(** A refused password, and a failed TLS handshake, whose class only
    derives from one that [login] names: one line logged each, after the
    two calls. *)
Lemma login_connect_failure_witness :
  (exists st' : State Sim,
      login true false (state_0 [bad_password])
      = (Raise (VivintSkyApiAuthenticationError "Invalid credentials"), st')
      /\ calls st' = [NewAccount "user" "secret" None 0; Connect 1 true false;
                      LogError "Invalid credentials"])
  /\ (exists st' : State Sim,
        login true false (state_0 [ssl_failed])
        = (Raise (Subclass "ClientConnectorSSLError"
                    (ClientConnectorError "certificate verify failed")), st')
        /\ calls st' = [NewAccount "user" "secret" None 0; Connect 1 true false;
                        LogError "Unable to connect to the Vivint API"]).
Proof.
  split.
  - exact (login_connect_failure true false (state_0 [bad_password])
             "user" "secret" 1
             {| sim_next := 2; sim_connected := []; sim_closed := [];
                sim_script := [bad_password] |}
             {| sim_next := 2; sim_connected := []; sim_closed := [];
                sim_script := [] |}
             (VivintSkyApiAuthenticationError "Invalid credentials")
             eq_refl eq_refl eq_refl eq_refl).
  - exact (login_connect_failure true false (state_0 [ssl_failed])
             "user" "secret" 1
             {| sim_next := 2; sim_connected := []; sim_closed := [];
                sim_script := [ssl_failed] |}
             {| sim_next := 2; sim_connected := []; sim_closed := [];
                sim_script := [] |}
             (Subclass "ClientConnectorSSLError"
                (ClientConnectorError "certificate verify failed"))
             eq_refl eq_refl eq_refl eq_refl).
Defined.

(** No stored password: [KeyError] before anything is called. *)
Lemma login_missing_credentials_witness :
  login true true {| self := hub_no_password; world := world (state_0 []);
                     calls := [] |}
  = (Raise (KeyError "password"),
     with_logged_in false {| self := hub_no_password;
                             world := world (state_0 []); calls := [] |}).
Proof.
  exact (proj2 (login_missing_credentials true true
                  {| self := hub_no_password; world := world (state_0 []);
                     calls := [] |}) "user" eq_refl eq_refl).
Defined.

(** MFA asked for, then a code the account accepts. *)
Lemma login_then_verify_mfa_witness :
  exists st1 st2 : State Sim,
    login true true (state_0 [mfa_required])
    = (Raise (VivintSkyApiMfaRequiredError "MFA required"), st1)
    /\ logged_in (self st1) = false
    /\ verify_mfa "123456" st1 = (Ok true, st2)
    /\ logged_in (self st2) = true
    /\ account (self st2) = Some 1
    /\ world st2 = {| sim_next := 2; sim_connected := [1]; sim_closed := [];
                      sim_script := [] |}.
Proof.
  exact (login_then_verify_mfa true true "123456" (state_0 [mfa_required])
           "user" "secret" 1
           {| sim_next := 2; sim_connected := []; sim_closed := [];
              sim_script := [mfa_required] |}
           {| sim_next := 2; sim_connected := []; sim_closed := [];
              sim_script := [] |}
           {| sim_next := 2; sim_connected := [1]; sim_closed := [];
              sim_script := [] |}
           (VivintSkyApiMfaRequiredError "MFA required")
           eq_refl eq_refl eq_refl eq_refl eq_refl).
Defined.

(** A hub that never logged in: its session stays open. *)
Lemma disconnect_without_account_witness :
  disconnect (state_0 []) = (Raise (NoneType_has_no "connected"), state_0 [])
  /\ ClientSession_closed (session hub_0) (world (state_0 [])) = false.
Proof.
  split; [exact (disconnect_without_account (state_0 []) eq_refl) | reflexivity].
Defined.

(** The calls of the [disconnect] that follows a [login]. *)
Lemma disconnect_calls_witness :
  account (self logged_in_state) = Some 1
  /\ calls disconnected_state
     = (calls logged_in_state
        ++ [Disconnect 1] ++ [CloseSession 0] ++ [CallListener 7])%list.
Proof.
  assert (Hrun : disconnect logged_in_state = (Ok tt, disconnected_state))
    by (vm_compute; reflexivity).
  destruct (disconnect_calls logged_in_state disconnected_state Hrun)
    as (a & Ha & Hcalls).
  assert (Ha1 : Some 1 = Some a) by exact Ha.
  injection Ha1 as <-.
  split; [exact Ha | exact Hcalls].
Defined.

(** [login], [disconnect], [login]: the second account is built on session
    0, which is closed. *)
Lemma login_after_disconnect_witness :
  ClientSession_closed (session (self logged_in_state)) (world disconnected_state)
  = true
  /\ exists evs : list Event,
       calls (snd (login true true disconnected_state)) =
       (calls disconnected_state
        ++ NewAccount "user" "secret"
             (_data (self logged_in_state) !! CONF_REFRESH_TOKEN)
             (session (self logged_in_state)) :: evs)%list.
Proof.
  assert (Hrun : disconnect logged_in_state = (Ok tt, disconnected_state))
    by (vm_compute; reflexivity).
  apply (login_after_disconnect (contract := sim_contract) true true
           logged_in_state disconnected_state "user" "secret" Hrun);
    vm_compute; reflexivity.
Defined.

(** The remote of the sensor gets the sensor's record, name and all. *)
Lemma device_info_of_subdevice_witness :
  device_info sub_sensor_13 = device_info sensor_12.
Proof.
  exact (device_info_of_subdevice sub_sensor_13 sensor_12 eq_refl eq_refl eq_refl).
Defined.

Example device_info_of_remote_name :
  DeviceInfo.name
    <$> (match device_info sub_sensor_13 with Ok i => Some i | Raise _ => None end)
  = Some "WirelessSensor".
Proof. reflexivity. Qed.

Lemma unique_id_separates_keys_witness :
  exists e e' : VivintBaseEntity.t,
    VivintBaseEntity.__init__ sensor_12 hub_0 battery = Ok e
    /\ VivintBaseEntity.__init__ sensor_12 hub_0 tamper = Ok e'
    /\ VivintBaseEntity._attr_unique_id e <> VivintBaseEntity._attr_unique_id e'.
Proof.
  eexists. eexists. split; [reflexivity|]. split; [reflexivity|].
  apply (unique_id_separates_keys sensor_12 hub_0 hub_0 battery tamper);
    [reflexivity | reflexivity | discriminate].
Defined.

Lemma device_info_name_kept_witness :
  (exists info : DeviceInfo.t,
      device_info keypad_15 = Ok info /\ DeviceInfo.name info = "Keypad")
  /\ (exists info : DeviceInfo.t,
        device_info keypad_remote_17 = Ok info
        /\ DeviceInfo.name info = "Keypad").
Proof.
  split.
  - eexists. split; [reflexivity|].
    apply (proj1 (device_info_name_kept keypad_15 keypad_15 _ eq_refl eq_refl));
      [reflexivity | discriminate].
  - eexists. split; [reflexivity|].
    apply (proj1 (device_info_name_kept keypad_remote_17 keypad_15 _
                    eq_refl eq_refl));
      [reflexivity | discriminate].
Defined.

(** The panel gets an entity with an unprefixed key; device A, which is no
    panel and has none, gets no entity. *)
Lemma entity_without_panel_witness :
  (exists e : VivintBaseEntity.t,
      VivintBaseEntity.__init__ panel_100 hub_0 battery = Ok e
      /\ VivintBaseEntity._attr_unique_id e = "100-battery"
      /\ DeviceInfo.via_device (VivintBaseEntity._attr_device_info e) = None)
  /\ VivintEntity.__init__ device_A hub_0 = Raise (NoneType_has_no "panel_id").
Proof.
  split.
  - exact (proj1 (entity_without_panel panel_100 hub_0 battery eq_refl eq_refl)
             eq_refl).
  - exact (proj2 (proj2 (entity_without_panel device_A hub_0 battery
                           eq_refl eq_refl) eq_refl)).
Defined.

(** The sensor under either name has one identity; the keypad has
    another. *)
Lemma get_device_id_tells_apart_witness :
  get_device_id sensor_12 = get_device_id sensor_12_renamed
  /\ (100 = 100 /\ 12 = 12)%Z
  /\ get_device_id sensor_12 <> get_device_id keypad_15.
Proof.
  split; [reflexivity|]. split.
  - exact (get_device_id_tells_apart sensor_12 sensor_12_renamed 100 12 100 12
             eq_refl eq_refl eq_refl eq_refl eq_refl eq_refl eq_refl).
  - intros Heq.
    destruct (get_device_id_tells_apart sensor_12 keypad_15 100 12 100 15
                eq_refl eq_refl eq_refl eq_refl eq_refl eq_refl Heq)
      as [_ Hz].
    discriminate Hz.
Defined.

Lemma unique_id_tells_apart_witness :
  exists e1 e2 e3 : VivintBaseEntity.t,
    VivintBaseEntity.__init__ sensor_12 hub_0 battery = Ok e1
    /\ VivintBaseEntity.__init__ sensor_12_renamed hub_0 battery = Ok e2
    /\ VivintBaseEntity.__init__ keypad_15 hub_0 battery = Ok e3
    /\ VivintBaseEntity._attr_unique_id e1 = VivintBaseEntity._attr_unique_id e2
    /\ (12 = 12)%Z
    /\ VivintBaseEntity._attr_unique_id e1 <> VivintBaseEntity._attr_unique_id e3.
Proof.
  eexists. eexists. eexists.
  split; [reflexivity|]. split; [reflexivity|]. split; [reflexivity|].
  split; [reflexivity|]. split.
  - exact (proj1 (unique_id_tells_apart sensor_12 sensor_12_renamed hub_0 hub_0
                    battery battery _ _ 12 12
                    eq_refl eq_refl eq_refl eq_refl eq_refl eq_refl)).
  - intros Heq.
    destruct (unique_id_tells_apart sensor_12 keypad_15 hub_0 hub_0
                battery battery _ _ 12 15
                eq_refl eq_refl eq_refl eq_refl eq_refl Heq) as [Hz _].
    discriminate Hz.
Defined.

(** A sub-device without a parent has no identity. *)
Example get_device_id_of_orphan :
  get_device_id orphan = Raise (NoneType_has_no "id").
Proof. reflexivity. Qed.
End MoreScenarios.

Section StrictScenarios.
Local Existing Instance vivint_const.
Local Existing Instance sim_strict.

(** A listener that fails: [disconnect] raises what it raised, after the
    account and the session were dealt with, and the hub still has the
    listener. *)
Lemma disconnect_keeps_hub_witness :
  fst (disconnect strict_logged_in_state) = listener_failed
  /\ __undo_listener (self (snd (disconnect strict_logged_in_state))) = Some 7
  /\ logged_in (self (snd (disconnect strict_logged_in_state))) = true.
Proof.
  destruct (disconnect_keeps_hub strict_logged_in_state)
    as (_ & _ & Hflag & Hlistener).
  split; [vm_compute; reflexivity|]. split; [exact Hlistener | exact Hflag].
Defined.
End StrictScenarios.
